(** * VR buzz-wire game: the collision model and the session state machine

    A shallow embedding of [PythonServer/buzz_wire_game.py] (class
    [BuzzWireGame]) and the properties its specification states.

    Numbers are Python floats, that is IEEE 754 binary64 values: they are
    modelled by Rocq's primitive [float], whose operations are the same
    correctly rounded binary64 operations, so every definition below
    evaluates on concrete inputs exactly as the Python code does.  Facts that
    hold for every float are derived from the specification of the
    primitives ([FloatAxioms], over [SpecFloat]).

    The layout is: the Python data the code handles; the game object and its
    methods; the vocabulary used to state the properties, with a sample
    session to evaluate them on; the HTTP handlers of [server.py]; then the
    lemmas and theorems. *)

From Stdlib Require Import ZArith Bool List Lia Floats.
From Stdlib Require String.
Import ListNotations.

Set Warnings "-inexact-float,-register-all".

Local Open Scope float_scope.

(** ** Python values, exceptions and results *)

(** What a caller can pass as [positions]: a number, or a list of values
    (JSON arrays of numbers, nested at will).  A number is a float: any
    binary64 value, the infinities and NaN included.  The other JSON values
    are outside the model, integers among them: an integer within the float
    range behaves as the float it converts to when it is subtracted from a
    float coordinate, an integer beyond it makes that subtraction raise
    [OverflowError]. *)
Inductive value : Type :=
| VNum (x : float)
| VList (items : list value).

(** The exceptions the operations of the module can raise. *)
Variant exn : Set := TypeError | ValueError | IndexError | ZeroDivisionError.

(** A computation either returns or raises. *)
Variant result (A : Type) : Type :=
| Ok (a : A)
| Raise (e : exn).

Arguments Ok {A} a.
Arguments Raise {A} e.

Definition bind {A B : Type} (r : result A) (k : A -> result B) : result B :=
  match r with
  | Ok a => k a
  | Raise e => Raise e
  end.

Declare Scope py_scope.
Delimit Scope py_scope with py.
Notation "x <- r ;; k" := (bind r (fun x => k))
  (at level 61, r at next level, right associativity) : py_scope.
Notation "' pat <- r ;; k" := (bind r (fun x => match x with pat => k end))
  (at level 61, pat pattern, r at next level, right associativity) : py_scope.

(** A 3D point of the track: the track is a literal of the module, every
    point of it a list of three floats. *)
Definition Point : Set := float * float * float.

(** The list [[x, y, z]] a well-formed caller sends for a point. *)
Definition point_value (p : Point) : value :=
  let '(x, y, z) := p in VList [VNum x; VNum y; VNum z].

(** [min(a, b)] keeps [a] unless [b < a]; [max(a, b)] keeps [a] unless
    [b > a] (so a NaN second argument is never selected). *)
Definition py_min (a b : float) : float := if b <? a then b else a.
Definition py_max (a b : float) : float := if a <? b then b else a.

(** [a / b]: division by a zero of either sign raises. *)
Definition py_div (a b : float) : result float :=
  if b =? 0 then Raise ZeroDivisionError else Ok (a / b).

(** [math.sqrt]: a negative argument is a domain error. *)
Definition math_sqrt (x : float) : result float :=
  if x <? 0 then Raise ValueError else Ok (PrimFloat.sqrt x).

(** A value used as an operand of float arithmetic. *)
Definition as_float (v : value) : result float :=
  match v with
  | VNum x => Ok x
  | VList _ => Raise TypeError
  end.

(** [v - a] for a value [v] and a float [a]. *)
Definition value_sub (v : value) (a : float) : result float :=
  (x <- as_float v ;; Ok (x - a))%py.

(** [a, b, c = v] *)
Definition unpack3 (v : value) : result (value * value * value) :=
  match v with
  | VNum _ => Raise TypeError
  | VList [a; b; c] => Ok (a, b, c)
  | VList _ => Raise ValueError
  end.

(** [v[i]] *)
Definition subscript (v : value) (i : nat) : result value :=
  match v with
  | VNum _ => Raise TypeError
  | VList items =>
      match nth_error items i with
      | Some x => Ok x
      | None => Raise IndexError
      end
  end.

(** [isinstance(v, list)] *)
Definition is_list (v : value) : bool :=
  match v with
  | VNum _ => false
  | VList _ => true
  end.

(** Truth value of a float: zero of either sign is false, NaN is true. *)
Definition truthy (x : float) : bool := negb (x =? 0).

(** The number reported under ["distance_to_track"]: the integer [-1] or a
    float. *)
Variant number : Set :=
| PyInt (n : Z)
| PyFloat (x : float).

(** ** The game object *)

(** The attributes of a [BuzzWireGame] instance.  The constructor stores
    the [collision_threshold] it is given without a check; the model covers
    the games whose threshold is a float, as the signature of [__init__]
    declares it. *)
Record BuzzWireGame : Set := {
  collision_threshold : float;
  track_points : list Point;
  start_zone : Point;
  end_zone : Point;
  zone_radius : float;
  game_started : bool;
  game_completed : bool;
  timing_started : bool;
  start_time : option float;
  elapsed_time : float;
  collision_count : Z;
  is_colliding : bool;
  last_collision_time : float;
  cooldown : float
}.

(** The dictionary [get_state] returns. *)
Module State.
Record t : Set := {
  game_started : bool;
  game_completed : bool;
  timing_started : bool;
  elapsed_time : float;
  collision_count : Z;
  is_colliding : bool;
  distance_to_track : number;
  collision_threshold : float
}.
End State.

(** The dictionary [get_track] returns. *)
Module Track.
Record t : Set := {
  track_points : list Point;
  start_zone : Point;
  end_zone : Point;
  zone_radius : float;
  collision_threshold : float
}.
End Track.

(** The readings of [time.time()] one call of [update] can make, named by the
    place that makes them. *)
Record Clock : Set := {
  at_start : float;      (* [self.start_time = time.time()] *)
  at_elapsed : float;    (* [self.elapsed_time = time.time() - self.start_time] *)
  at_collision : float   (* [current_time = time.time()] *)
}.

(** Attribute assignments. *)
Definition set_game_started (b : bool) (self : BuzzWireGame) : BuzzWireGame :=
  {| collision_threshold := collision_threshold self;
     track_points := track_points self;
     start_zone := start_zone self;
     end_zone := end_zone self;
     zone_radius := zone_radius self;
     game_started := b;
     game_completed := game_completed self;
     timing_started := timing_started self;
     start_time := start_time self;
     elapsed_time := elapsed_time self;
     collision_count := collision_count self;
     is_colliding := is_colliding self;
     last_collision_time := last_collision_time self;
     cooldown := cooldown self |}.

Definition set_game_completed (b : bool) (self : BuzzWireGame) : BuzzWireGame :=
  {| collision_threshold := collision_threshold self;
     track_points := track_points self;
     start_zone := start_zone self;
     end_zone := end_zone self;
     zone_radius := zone_radius self;
     game_started := game_started self;
     game_completed := b;
     timing_started := timing_started self;
     start_time := start_time self;
     elapsed_time := elapsed_time self;
     collision_count := collision_count self;
     is_colliding := is_colliding self;
     last_collision_time := last_collision_time self;
     cooldown := cooldown self |}.

Definition set_timing_started (b : bool) (self : BuzzWireGame) : BuzzWireGame :=
  {| collision_threshold := collision_threshold self;
     track_points := track_points self;
     start_zone := start_zone self;
     end_zone := end_zone self;
     zone_radius := zone_radius self;
     game_started := game_started self;
     game_completed := game_completed self;
     timing_started := b;
     start_time := start_time self;
     elapsed_time := elapsed_time self;
     collision_count := collision_count self;
     is_colliding := is_colliding self;
     last_collision_time := last_collision_time self;
     cooldown := cooldown self |}.

Definition set_start_time (t : option float) (self : BuzzWireGame) : BuzzWireGame :=
  {| collision_threshold := collision_threshold self;
     track_points := track_points self;
     start_zone := start_zone self;
     end_zone := end_zone self;
     zone_radius := zone_radius self;
     game_started := game_started self;
     game_completed := game_completed self;
     timing_started := timing_started self;
     start_time := t;
     elapsed_time := elapsed_time self;
     collision_count := collision_count self;
     is_colliding := is_colliding self;
     last_collision_time := last_collision_time self;
     cooldown := cooldown self |}.

Definition set_elapsed_time (x : float) (self : BuzzWireGame) : BuzzWireGame :=
  {| collision_threshold := collision_threshold self;
     track_points := track_points self;
     start_zone := start_zone self;
     end_zone := end_zone self;
     zone_radius := zone_radius self;
     game_started := game_started self;
     game_completed := game_completed self;
     timing_started := timing_started self;
     start_time := start_time self;
     elapsed_time := x;
     collision_count := collision_count self;
     is_colliding := is_colliding self;
     last_collision_time := last_collision_time self;
     cooldown := cooldown self |}.

Definition set_collision_count (n : Z) (self : BuzzWireGame) : BuzzWireGame :=
  {| collision_threshold := collision_threshold self;
     track_points := track_points self;
     start_zone := start_zone self;
     end_zone := end_zone self;
     zone_radius := zone_radius self;
     game_started := game_started self;
     game_completed := game_completed self;
     timing_started := timing_started self;
     start_time := start_time self;
     elapsed_time := elapsed_time self;
     collision_count := n;
     is_colliding := is_colliding self;
     last_collision_time := last_collision_time self;
     cooldown := cooldown self |}.

Definition set_is_colliding (b : bool) (self : BuzzWireGame) : BuzzWireGame :=
  {| collision_threshold := collision_threshold self;
     track_points := track_points self;
     start_zone := start_zone self;
     end_zone := end_zone self;
     zone_radius := zone_radius self;
     game_started := game_started self;
     game_completed := game_completed self;
     timing_started := timing_started self;
     start_time := start_time self;
     elapsed_time := elapsed_time self;
     collision_count := collision_count self;
     is_colliding := b;
     last_collision_time := last_collision_time self;
     cooldown := cooldown self |}.

Definition set_last_collision_time (x : float) (self : BuzzWireGame) : BuzzWireGame :=
  {| collision_threshold := collision_threshold self;
     track_points := track_points self;
     start_zone := start_zone self;
     end_zone := end_zone self;
     zone_radius := zone_radius self;
     game_started := game_started self;
     game_completed := game_completed self;
     timing_started := timing_started self;
     start_time := start_time self;
     elapsed_time := elapsed_time self;
     collision_count := collision_count self;
     is_colliding := is_colliding self;
     last_collision_time := x;
     cooldown := cooldown self |}.

Definition set_cooldown (x : float) (self : BuzzWireGame) : BuzzWireGame :=
  {| collision_threshold := collision_threshold self;
     track_points := track_points self;
     start_zone := start_zone self;
     end_zone := end_zone self;
     zone_radius := zone_radius self;
     game_started := game_started self;
     game_completed := game_completed self;
     timing_started := timing_started self;
     start_time := start_time self;
     elapsed_time := elapsed_time self;
     collision_count := collision_count self;
     is_colliding := is_colliding self;
     last_collision_time := last_collision_time self;
     cooldown := x |}.

(** [_define_track]: the fourteen points of the wire. *)
Definition _define_track : list Point :=
  [ (-0.5, 1.0, 0.0);
    (-0.3, 1.1, 0.0);
    (-0.1, 1.2, 0.05);
    (0.0, 1.15, 0.1);
    (0.1, 1.25, 0.05);
    (0.2, 1.1, 0.0);
    (0.3, 1.15, -0.1);
    (0.4, 1.2, -0.15);
    (0.5, 1.3, -0.1);
    (0.55, 1.35, 0.0);
    (0.5, 1.4, 0.1);
    (0.6, 1.3, 0.1);
    (0.7, 1.2, 0.05);
    (0.8, 1.1, 0.0) ].

(** [reset]: every session attribute is assigned, in the order of the code. *)
Definition reset (self : BuzzWireGame) : BuzzWireGame :=
  let self := set_game_started false self in
  let self := set_game_completed false self in
  let self := set_timing_started false self in
  let self := set_start_time None self in
  let self := set_elapsed_time 0.0 self in
  let self := set_collision_count 0%Z self in
  let self := set_is_colliding false self in
  let self := set_last_collision_time 0.0 self in
  let self := set_cooldown 0.5 self in
  self.

(** [__init__]: the threshold, the track and the two zones are fixed, then
    [reset] assigns the session attributes (before it they do not exist; the
    values written here for them are overwritten by [reset]). *)
Definition __init__ (collision_threshold : float) : BuzzWireGame :=
  let track := _define_track in
  reset
    {| collision_threshold := collision_threshold;
       track_points := track;
       start_zone := hd (0, 0, 0) track;
       end_zone := last track (0, 0, 0);
       zone_radius := 0.1;
       game_started := false;
       game_completed := false;
       timing_started := false;
       start_time := None;
       elapsed_time := 0;
       collision_count := 0%Z;
       is_colliding := false;
       last_collision_time := 0;
       cooldown := 0 |}.

(** The default threshold of the constructor. *)
Definition default_collision_threshold : float := 0.05.

(** [start_game] *)
Definition start_game (self : BuzzWireGame) : BuzzWireGame :=
  let self := reset self in
  let self := set_game_started true self in
  let self := set_timing_started false self in
  let self := set_start_time None self in
  self.

(** [get_track] *)
Definition get_track (self : BuzzWireGame) : Track.t :=
  {| Track.track_points := track_points self;
     Track.start_zone := start_zone self;
     Track.end_zone := end_zone self;
     Track.zone_radius := zone_radius self;
     Track.collision_threshold := collision_threshold self |}.

(** [_point_to_segment_distance] *)
Definition _point_to_segment_distance
  (point : value) (seg_start seg_end : Point) : result float :=
  ('(px, py, pz) <- unpack3 point ;;
   let '(ax, ay, az) := seg_start in
   let '(bx, by', bz) := seg_end in
   let vx := bx - ax in
   let vy := by' - ay in
   let vz := bz - az in
   wx <- value_sub px ax ;;
   wy <- value_sub py ay ;;
   wz <- value_sub pz az ;;
   let v_dot_v := vx * vx + vy * vy + vz * vz in
   if v_dot_v <? 1e-10 then math_sqrt (wx * wx + wy * wy + wz * wz)
   else
     let w_dot_v := wx * vx + wy * vy + wz * vz in
     q <- py_div w_dot_v v_dot_v ;;
     let t := py_max 0.0 (py_min 1.0 q) in
     let closest_x := ax + t * vx in
     let closest_y := ay + t * vy in
     let closest_z := az + t * vz in
     dx <- value_sub px closest_x ;;
     dy <- value_sub py closest_y ;;
     dz <- value_sub pz closest_z ;;
     math_sqrt (dx * dx + dy * dy + dz * dz))%py.

(** [_calculate_min_distance_to_track]: the loop over
    [range(len(self.track_points) - 1)], one consecutive pair of track points
    per turn, [min_distance] carried along. *)
Fixpoint track_loop (point : value) (track : list Point) (min_distance : float)
  : result float :=
  match track with
  | segment_start :: ((segment_end :: _) as rest) =>
      (distance <- _point_to_segment_distance point segment_start segment_end ;;
       track_loop point rest (py_min min_distance distance))%py
  | _ => Ok min_distance
  end.

Definition _calculate_min_distance_to_track
  (self : BuzzWireGame) (point : value) : result float :=
  track_loop point (track_points self) infinity.

(** [_is_in_zone] *)
Definition _is_in_zone
  (self : BuzzWireGame) (position : value) (zone_center : Point) : result bool :=
  (let '(cx, cy, cz) := zone_center in
   p0 <- subscript position 0 ;;
   dx <- value_sub p0 cx ;;
   p1 <- subscript position 1 ;;
   dy <- value_sub p1 cy ;;
   p2 <- subscript position 2 ;;
   dz <- value_sub p2 cz ;;
   distance <- math_sqrt (dx * dx + dy * dy + dz * dz) ;;
   Ok (distance <? zone_radius self))%py.

(** The loop of [update] over the input points, [min_distance] carried
    along. *)
Fixpoint points_loop (self : BuzzWireGame) (positions : list value)
  (min_distance : float) : result float :=
  match positions with
  | [] => Ok min_distance
  | point :: rest =>
      (dist <- _calculate_min_distance_to_track self point ;;
       points_loop self rest (py_min min_distance dist))%py
  end.

(** The input of [update] made a list of points:
    [if len(positions) > 0 and not isinstance(positions[0], list):
       positions = [positions]].
    [len] of a number raises; a non-empty list whose first item is not a list
    is a single point and is wrapped. *)
Definition normalize (positions : value) : result (list value) :=
  match positions with
  | VNum _ => Raise TypeError
  | VList [] => Ok []
  | VList ((first :: _) as items) =>
      if negb (is_list first) then Ok [positions] else Ok items
  end.

(** [positions[0] if positions else [0, 0, 0]] *)
Definition first_point_of (positions : list value) : value :=
  match positions with
  | first :: _ => first
  | [] => VList [VNum 0; VNum 0; VNum 0]
  end.

Section Game.

(** Python's built-in [round(x, ndigits)] on floats.  Its decimal rounding
    belongs to the interpreter, not to this module; the development is
    parametric in it. *)
Variable py_round : float -> Z -> float.

(** [get_state]; the default of [distance] is [-1.0]. *)
Definition get_state (self : BuzzWireGame) (distance : float) : State.t :=
  {| State.game_started := game_started self;
     State.game_completed := game_completed self;
     State.timing_started := timing_started self;
     State.elapsed_time := py_round (elapsed_time self) 2;
     State.collision_count := collision_count self;
     State.is_colliding := is_colliding self;
     State.distance_to_track :=
       if 0 <=? distance then PyFloat (py_round distance 4) else PyInt (-1);
     State.collision_threshold := collision_threshold self |}.

Definition no_distance : float := -1.0.

(** The blocks of [update] that assign attributes.

    Start zone touched: [timing_started] and [start_time] are set. *)
Definition touch_start (self : BuzzWireGame) (now : Clock) : BuzzWireGame :=
  let self := set_timing_started true self in
  set_start_time (Some (at_start now)) self.

(** [if self.start_time: self.elapsed_time = time.time() - self.start_time] *)
Definition refresh_elapsed_time (self : BuzzWireGame) (now : Clock)
  : BuzzWireGame :=
  match start_time self with
  | Some t =>
      if truthy t then set_elapsed_time (at_elapsed now - t) self else self
  | None => self
  end.

(** Collision detection and the count of new collision events, with the
    cooldown. *)
Definition detect_collision
  (self : BuzzWireGame) (min_distance current_time : float) : BuzzWireGame :=
  let was_colliding := is_colliding self in
  let self := set_is_colliding (min_distance <? collision_threshold self) self in
  if is_colliding self && negb was_colliding then
    if cooldown self <? current_time - last_collision_time self then
      let self := set_collision_count (collision_count self + 1)%Z self in
      set_last_collision_time current_time self
    else self
  else self.

(** [update]: the object after the call and what the call returns or
    raises.  An exception leaves the assignments made before it in place.
    The two [print] calls write to the console only and are left out. *)
Definition update (self : BuzzWireGame) (positions : value) (now : Clock)
  : BuzzWireGame * result State.t :=
  if negb (game_started self) || game_completed self then
    (self, Ok (get_state self no_distance))
  else
    match normalize positions with
    | Raise e => (self, Raise e)
    | Ok positions =>
        let first_point := first_point_of positions in
        if negb (timing_started self) then
          match _is_in_zone self first_point (start_zone self) with
          | Raise e => (self, Raise e)
          | Ok inside =>
              let self := if inside then touch_start self now else self in
              (self, Ok (get_state self no_distance))
          end
        else
          let self := refresh_elapsed_time self now in
          match points_loop self positions infinity with
          | Raise e => (self, Raise e)
          | Ok min_distance =>
              let current_time := at_collision now in
              let self := detect_collision self min_distance current_time in
              match _is_in_zone self first_point (end_zone self) with
              | Raise e => (self, Raise e)
              | Ok inside =>
                  let self :=
                    if inside then set_game_completed true self else self in
                  (self, Ok (get_state self min_distance))
              end
          end
    end.

(** The operations a caller applies to a game: [reset], [start_game] and
    [update] with its argument and clock readings. *)
Inductive call : Type :=
| Reset
| StartGame
| Update (positions : value) (now : Clock).

Definition step (self : BuzzWireGame) (c : call) : BuzzWireGame :=
  match c with
  | Reset => reset self
  | StartGame => start_game self
  | Update positions now => fst (update self positions now)
  end.

Definition run (self : BuzzWireGame) (calls : list call) : BuzzWireGame :=
  fold_left step calls self.

(** The games a caller can hold: built by the constructor, then driven by
    any sequence of calls. *)
Definition reachable (self : BuzzWireGame) : Prop :=
  exists threshold calls, self = run (__init__ threshold) calls.

(** A sequence of [update] calls. *)
Definition run_updates (self : BuzzWireGame) (calls : list (value * Clock))
  : BuzzWireGame :=
  fold_left (fun g c => fst (update g (fst c) (snd c))) calls self.

(** The times ([current_time]) of the [update] calls of a sequence that
    raised [collision_count], in order. *)
Fixpoint increment_times (self : BuzzWireGame) (calls : list (value * Clock))
  : list float :=
  match calls with
  | [] => []
  | (positions, now) :: rest =>
      let self' := fst (update self positions now) in
      if (collision_count self <? collision_count self')%Z
      then at_collision now :: increment_times self' rest
      else increment_times self' rest
  end.

End Game.

(** ** Vocabulary of the specification *)

(** Vectors of three floats: difference, sum, scaling, dot product, norm. *)
Definition vsub (p q : Point) : Point :=
  let '(px, py, pz) := p in
  let '(qx, qy, qz) := q in
  (px - qx, py - qy, pz - qz).

Definition vadd (p q : Point) : Point :=
  let '(px, py, pz) := p in
  let '(qx, qy, qz) := q in
  (px + qx, py + qy, pz + qz).

Definition vscale (t : float) (v : Point) : Point :=
  let '(vx, vy, vz) := v in
  (t * vx, t * vy, t * vz).

Definition vdot (u v : Point) : float :=
  let '(ux, uy, uz) := u in
  let '(vx, vy, vz) := v in
  ux * vx + uy * vy + uz * vz.

Definition vnorm (v : Point) : float := PrimFloat.sqrt (vdot v v).

(** [clamp(q, 0, 1)] as the code writes it: [max(0.0, min(1.0, q))]. *)
Definition clamp01 (q : float) : float := py_max 0 (py_min 1 q).

(** The numerical guard for a degenerate segment. *)
Definition degenerate_threshold : float := 1e-10.

(** Point-to-segment distance in the words of the specification: with
    [v = B - A] and [w = P - A], [|w|] when [v.v] is below the guard, and
    otherwise [|P - (A + t v)|] for [t = clamp(w.v / v.v, 0, 1)]. *)
Definition segment_distance (P A B : Point) : float :=
  let v := vsub B A in
  let w := vsub P A in
  if vdot v v <? degenerate_threshold then vnorm w
  else
    let t := clamp01 (vdot w v / vdot v v) in
    vnorm (vsub P (vadd A (vscale t v))).

(** Euclidean distance between two points, and the zone test. *)
Definition euclidean_distance (p q : Point) : float := vnorm (vsub p q).

Definition in_zone (p center : Point) (radius : float) : bool :=
  euclidean_distance p center <? radius.

(** The segments of a track: its pairs of consecutive points. *)
Fixpoint segments (track : list Point) : list (Point * Point) :=
  match track with
  | a :: ((b :: _) as rest) => (a, b) :: segments rest
  | _ => []
  end.

(** The distances from every input point to every segment of the track. *)
Definition distances (points track : list Point) : list float :=
  flat_map
    (fun p => map (fun s => segment_distance p (fst s) (snd s)) (segments track))
    points.

(** [m] is the minimum of the distances [ds]: a number (not NaN), none of
    [ds] is below it, and it is one of them, or [+infinity] when none was
    selected. *)
Definition is_minimum (m : float) (ds : list float) : Prop :=
  is_nan m = false
  /\ (forall d, In d ds -> (d <? m) = false)
  /\ (m = infinity \/ In m ds).

(** The running minimum the two loops compute, starting from [+infinity]:
    over the segments for one point, and over the points. *)
Definition running_min (ds : list float) : float :=
  fold_left py_min ds infinity.

Definition track_distance (track : list Point) (p : Point) : float :=
  running_min
    (map (fun s => segment_distance p (fst s) (snd s)) (segments track)).

Definition min_distance_to_track (track points : list Point) : float :=
  running_min (map (track_distance track) points).

(** Every coordinate is a finite number (neither an infinity nor NaN). *)
Definition point_finite (p : Point) : bool :=
  let '(x, y, z) := p in is_finite x && is_finite y && is_finite z.

(** [P] lies on the segment from [A] to [B]: [P = A + t (B - A)] for some
    [t] in [[0, 1]]. *)
Definition on_segment (P A B : Point) : Prop :=
  exists t : float,
    (0 <=? t) = true /\ (t <=? 1) = true /\ P = vadd A (vscale t (vsub B A)).

(** The routine returned a zero (of either sign). *)
Definition returns_zero (r : result float) : bool :=
  match r with
  | Ok d => d =? 0
  | Raise _ => false
  end.

(** Consecutive increments of a log are more than [cooldown] apart, the
    first of them counted from [previous]. *)
Fixpoint spaced (cooldown previous : float) (times : list float) : Prop :=
  match times with
  | [] => True
  | t :: rest => (cooldown <? t - previous) = true /\ spaced cooldown t rest
  end.

(** The test that makes [update] count a collision: the flag rises, and the
    cooldown since the last counted collision is over. *)
Definition counts_collision
  (self : BuzzWireGame) (min_distance current_time : float) : bool :=
  (min_distance <? collision_threshold self)
  && negb (is_colliding self)
  && (cooldown self <? current_time - last_collision_time self).

(** The invariant of the session flags. *)
Definition flags_consistent (self : BuzzWireGame) : Prop :=
  game_completed self = true ->
  game_started self = true /\ timing_started self = true.

(** ** Decoded floats

    Predicates on the decoding of a float ([Prim2SF]) in which the facts
    about binary64 arithmetic are proved. *)

(** The sign of a decoded float is not negative (NaN and both zeros count). *)
Definition sf_notneg (x : spec_float) : bool :=
  match x with
  | S754_nan => true
  | S754_zero _ => true
  | S754_infinity s => negb s
  | S754_finite s _ _ => negb s
  end.

Definition sf_is_nan (x : spec_float) : bool :=
  match x with
  | S754_nan => true
  | _ => false
  end.

Definition sf_is_finite (x : spec_float) : bool :=
  match x with
  | S754_nan | S754_infinity _ => false
  | _ => true
  end.

Definition notneg (x : float) : bool := sf_notneg (Prim2SF x).



(** A stand-in for [round] where one is needed to evaluate a call: nothing
    proved below depends on what [round] computes. *)
Definition no_rounding (x : float) (ndigits : Z) : float := x.

(** ** A sample session

    A game built with the default threshold and driven through its phases:
    started; timing, after a point 0.05 from the start of the wire; completed,
    after the end point of the wire.  All three clock readings of a call are
    taken equal. *)
Definition clock (t : float) : Clock :=
  {| at_start := t; at_elapsed := t; at_collision := t |}.

Definition sample_calls : list call :=
  [ StartGame;
    Update (point_value (-0.45, 1.0, 0.0)) (clock 100);
    Update (point_value (0.8, 1.1, 0.0)) (clock 130) ].

Definition fresh_game : BuzzWireGame := __init__ default_collision_threshold.

Definition started_game : BuzzWireGame :=
  Eval vm_compute in run no_rounding fresh_game (firstn 1 sample_calls).

Definition timing_game : BuzzWireGame :=
  Eval vm_compute in run no_rounding fresh_game (firstn 2 sample_calls).

Definition completed_game : BuzzWireGame :=
  Eval vm_compute in run no_rounding fresh_game sample_calls.

(** The track of the specification's scenarios: one segment from (0,0,0)
    to (1,0,0), threshold 0.05, zones of radius 0.1 at its two ends; the
    game is started, first waiting for the start zone, then timing. *)
Definition two_point_game_waiting : BuzzWireGame :=
  {| collision_threshold := 0.05;
     track_points := [(0, 0, 0); (1, 0, 0)];
     start_zone := (0, 0, 0);
     end_zone := (1, 0, 0);
     zone_radius := 0.1;
     game_started := true;
     game_completed := false;
     timing_started := false;
     start_time := None;
     elapsed_time := 0;
     collision_count := 0%Z;
     is_colliding := false;
     last_collision_time := 0;
     cooldown := 0.5 |}.

Definition two_point_game_timing : BuzzWireGame :=
  Eval vm_compute in
    fst (update no_rounding two_point_game_waiting
           (point_value (0.05, 0, 0)) (clock 100)).

(** Touching the wire, leaving it and touching it again: at 101 s, again
    0.2 s later (within the cooldown), and at 102 s. *)
Definition touch_and_release : list (value * Clock) :=
  let on_wire := point_value (-0.4, 1.05, 0.0) in
  let away := point_value (0.0, 0.5, 0.0) in
  [ (on_wire, clock 101); (on_wire, clock 101.05); (away, clock 101.1);
    (on_wire, clock 101.2); (away, clock 101.3); (on_wire, clock 102) ].

(** ** The HTTP handlers of [server.py]

    The module keeps one game in the global [game], [None] until a [/start]
    succeeds.  A handler is modelled by what it does to that global and by
    the response it sends; the console output is left out.

    The body of a request is given by what the handler makes of
    [request.get_json()]: [Unreadable] when the call raises, or returns a
    document on which the handler's next step raises (the handler's
    [except] answers with status 500); [Readable a] when the handler reads
    [a] from it.  A JSON object is read as an association list from keys to
    values (each key once). *)
Module Server.
Import String.
Local Open Scope string_scope.

Definition dict : Type := list (string * value).

(** [data[key]] when [key in data] *)
Fixpoint dict_get (data : dict) (key : string) : option value :=
  match data with
  | [] => None
  | (k, v) :: rest => if String.eqb k key then Some v else dict_get rest key
  end.

(** [key in data] *)
Definition dict_contains (data : dict) (key : string) : bool :=
  match dict_get data key with
  | Some _ => true
  | None => false
  end.

(** [data.get(key, default)] *)
Definition dict_get_default (data : dict) (key : string) (default : value)
  : value :=
  match dict_get data key with
  | Some v => v
  | None => default
  end.

(** [isinstance(v, list) and len(v) == n] *)
Definition is_list_of_length (v : value) (n : nat) : bool :=
  match v with
  | VNum _ => false
  | VList items => Nat.eqb (List.length items) n
  end.

(** The literal [[0, 0, 0]]. *)
Definition origin_value : value := VList [VNum 0; VNum 0; VNum 0].

(** What the handlers send back: the JSON document and the status code. *)
Variant response : Type :=
| Started (state : State.t) (track : Track.t)  (* 200, [{**state, **track}] *)
| Snapshot (state : State.t)                   (* 200, [jsonify(state)] *)
| TrackData (track : Track.t)                  (* 200, [jsonify(get_track())] *)
| Health                                       (* 200, the health document *)
| BadRequest (error : string)                  (* 400, [{"error": ...}] *)
| ServerError (e : exn)                        (* 500, [game.update] raised *)
| BodyError.                                   (* 500, the body was unreadable *)

Variant body (A : Type) : Type :=
| Unreadable
| Readable (a : A).

Arguments Unreadable {A}.
Arguments Readable {A} a.

Section Handlers.

Variable py_round : float -> Z -> float.

(** The positions [update_game] passes on: the entry ["positions"] when the
    body has one; otherwise the entry ["position"], replaced by [[0, 0, 0]]
    when it is missing, not a list or not of length 3, and wrapped in a
    list. *)
Definition positions_of (data : dict) : value :=
  if dict_contains data "positions" then
    dict_get_default data "positions" (VList [origin_value])
  else
    let position := dict_get_default data "position" origin_value in
    let position :=
      if negb (is_list_of_length position 3) then origin_value else position in
    VList [position].

(** [update_game], the handler of [POST /update].  Without a game the body
    is not read.  [Readable None]: [get_json()] returned [None] (the body is
    the JSON [null]); [Readable (Some data)]: it returned the object [data];
    [Unreadable]: it raised (no body, a body or a content type that is not
    JSON), or returned an array, a string, a number or a boolean, on which
    ['positions' in data] or [data.get] raises.  An exception of
    [game.update] is caught and answered with status 500 as well, the
    assignments made before it staying in the global game. *)
Definition update_game
  (game : option BuzzWireGame) (data : body (option dict)) (now : Clock)
  : option BuzzWireGame * response :=
  match game with
  | None => (game, BadRequest "Game not started")
  | Some g =>
      match data with
      | Unreadable => (game, BodyError)
      | Readable None => (game, BadRequest "No JSON data received")
      | Readable (Some data) =>
          let positions := positions_of data in
          match update py_round g positions now with
          | (g', Ok state) => (Some g', Snapshot state)
          | (g', Raise e) => (Some g', ServerError e)
          end
      end
  end.

(** [reset_game], the handler of [POST /reset]. *)
Definition reset_game (game : option BuzzWireGame)
  : option BuzzWireGame * response :=
  match game with
  | None => (game, BadRequest "Game not started")
  | Some g =>
      let g := start_game g in
      (Some g, Snapshot (get_state py_round g no_distance))
  end.

(** [health_check], the handler of [GET /health]. *)
Definition health_check (game : option BuzzWireGame)
  : option BuzzWireGame * response :=
  (game, Health).

(** [start_game], the handler of [POST /start].  [Readable (Some t)]: the
    body is an object with the float [t] under ["collision_threshold"];
    [Readable None]: it is an object without that key, or [null] or another
    false document, which [request.get_json() or {}] replaces by [{}];
    [Unreadable]: [get_json()] raised, or returned a non-empty array or
    string, a non-zero number or [true], on which [data.get] raises: the
    global [game] is not assigned and the answer has status 500.  Bodies
    with a threshold that is not a float are outside the model. *)
Definition start_game
  (game : option BuzzWireGame) (data : body (option float))
  : option BuzzWireGame * response :=
  match data with
  | Unreadable => (game, BodyError)
  | Readable threshold =>
      let threshold :=
        match threshold with
        | Some t => t
        | None => 0.05
        end in
      let game := __init__ threshold in
      let game := start_game game in
      let state := get_state py_round game no_distance in
      let track := get_track game in
      (Some game, Started state track)
  end.

(** [get_track], the handler of [GET /track]: without a game, a temporary
    one with the default threshold is read and dropped. *)
Definition get_track (game : option BuzzWireGame)
  : option BuzzWireGame * response :=
  match game with
  | None =>
      let temp_game := __init__ default_collision_threshold in
      (game, TrackData (get_track temp_game))
  | Some g => (game, TrackData (get_track g))
  end.

(** [get_state], the handler of [GET /state]. *)
Definition get_state (game : option BuzzWireGame)
  : option BuzzWireGame * response :=
  match game with
  | None => (game, BadRequest "Game not started")
  | Some g => (game, Snapshot (get_state py_round g no_distance))
  end.

(** A request: the route, with the body and the clock readings the handler
    uses. *)
Variant request : Type :=
| PostStart (data : body (option float))
| PostUpdate (data : body (option dict)) (now : Clock)
| GetTrack
| GetState
| PostReset
| GetHealth.

Definition handle (game : option BuzzWireGame) (r : request)
  : option BuzzWireGame * response :=
  match r with
  | PostStart data => start_game game data
  | PostUpdate data now => update_game game data now
  | GetTrack => get_track game
  | GetState => get_state game
  | PostReset => reset_game game
  | GetHealth => health_check game
  end.

(** The global [game] after a sequence of requests, from a fresh process. *)
Definition serve (requests : list request) : option BuzzWireGame :=
  fold_left (fun game r => fst (handle game r)) requests None.

End Handlers.
End Server.

(** The status code of a response. *)
Definition status (r : Server.response) : Z :=
  match r with
  | Server.BadRequest _ => 400
  | Server.ServerError _ | Server.BodyError => 500
  | _ => 200
  end.

(** The session attributes are as [reset] leaves them. *)
Definition pristine (self : BuzzWireGame) : Prop :=
  game_completed self = false
  /\ timing_started self = false
  /\ start_time self = None
  /\ elapsed_time self = 0
  /\ collision_count self = 0%Z
  /\ is_colliding self = false
  /\ last_collision_time self = 0.

(** What holds of the session attributes in every reachable game. *)
Definition session_consistent (self : BuzzWireGame) : Prop :=
  (0 <= collision_count self)%Z
  /\ (timing_started self = true <-> start_time self <> None)
  /\ (timing_started self = true -> game_started self = true)
  /\ (timing_started self = false -> pristine self).

(** A sample of requests *)
Section ServerSample.
Import String.
Local Open Scope string_scope.

(** A session served from a fresh process: [/start] with threshold 0.03,
    then a point in the start zone and a point on the wire. *)
Definition sample_requests : list Server.request :=
  [ Server.PostStart (Server.Readable (Some 0.03));
    Server.PostUpdate
      (Server.Readable (Some [("position", point_value (-0.45, 1.0, 0.0))]))
      (clock 100);
    Server.PostUpdate
      (Server.Readable
         (Some [("positions", VList [point_value (-0.4, 1.05, 0.0)])]))
      (clock 101) ].

Definition served_game : BuzzWireGame :=
  Eval vm_compute in
    match Server.serve no_rounding sample_requests with
    | Some g => g
    | None => fresh_game
    end.

End ServerSample.

(** * Properties *)

(** ** Facts about binary64 arithmetic

    Derived from the specification of the primitives: each operation is the
    [SpecFloat] operation on the decoded operands. *)

Lemma binary_round_aux_notneg m e l :
  sf_notneg (binary_round_aux prec emax false m e l) = true.
Proof.
  unfold binary_round_aux.
  destruct (shr_fexp prec emax m e l) as [mrs' e'].
  destruct (shr_fexp prec emax _ e' loc_Exact) as [mrs'' e''].
  destruct (shr_m mrs''); try reflexivity.
  destruct (Z.leb e'' _); reflexivity.
Qed.

Lemma SFmul_self_notneg x : sf_notneg (SF64mul x x) = true.
Proof.
  destruct x as [s|s| |s m e]; cbn; try reflexivity.
  - now destruct s.
  - rewrite xorb_nilpotent. apply binary_round_aux_notneg.
Qed.

Lemma SFadd_notneg x y :
  sf_notneg x = true -> sf_notneg y = true -> sf_notneg (SF64add x y) = true.
Proof.
  destruct x as [sx|sx| |sx mx ex], y as [sy|sy| |sy my ey];
    try destruct sx; try destruct sy; cbn; try congruence; intros _ _.
  unfold binary_normalize, binary_round.
  destruct (shl_align mx ex (Z.min ex ey)) as [a ?],
           (shl_align my ey (Z.min ex ey)) as [b ?].
  cbn.
  destruct (shl_align (a + b) _ _) as [mz ez].
  apply binary_round_aux_notneg.
Qed.

Lemma SFsqrt_notneg x : sf_notneg x = true -> sf_notneg (SF64sqrt x) = true.
Proof.
  destruct x as [s|s| |s m e]; try destruct s; cbn; try congruence; intros _.
  destruct (SFsqrt_core_binary prec emax (Z.pos m) e) as [[mz ez] lz].
  apply binary_round_aux_notneg.
Qed.

(** The comparison of decoded floats is a lexicographic one on sign,
    exponent and mantissa, so [<] is transitive and, NaN apart, total. *)
Ltac sf_order_cases :=
  unfold SFltb, SFcompare;
  repeat match goal with
    | x : spec_float |- _ => destruct x as [[]|[]| |[] ? ?]
    end;
  cbn; try congruence;
  rewrite ?Pos.compare_cont_spec; cbn [Pos.switch_Eq];
  repeat match goal with
    | |- context [Z.compare ?a ?b] => destruct (Z.compare_spec a b)
    end;
  try lia; try congruence; subst;
  repeat match goal with
    | |- context [Pos.compare ?a ?b] => destruct (Pos.compare_spec a b)
    end;
  cbn; try lia; try congruence.

Lemma SFltb_trans x y z :
  SFltb x y = true -> SFltb y z = true -> SFltb x z = true.
Proof. sf_order_cases. Qed.

Lemma SFltb_total x y z :
  SFltb x y = false -> SFltb x z = true -> sf_is_nan y = false ->
  SFltb y z = true.
Proof. sf_order_cases. Qed.

Lemma is_nan_spec x : is_nan x = sf_is_nan (Prim2SF x).
Proof.
  unfold is_nan. rewrite eqb_spec. unfold SFeqb, SFcompare.
  destruct (Prim2SF x) as [s|s| |s m e]; try destruct s; cbn; try reflexivity;
    rewrite Z.compare_refl, ?Pos.compare_cont_spec, Pos.compare_refl;
    reflexivity.
Qed.

Lemma is_finite_spec x : is_finite x = sf_is_finite (Prim2SF x).
Proof.
  unfold is_finite, is_infinity. rewrite is_nan_spec, eqb_spec, abs_spec.
  change (Prim2SF infinity) with (S754_infinity false).
  destruct (Prim2SF x) as [s|s| |s m e]; reflexivity.
Qed.

Lemma ltb_trans x y z :
  (x <? y) = true -> (y <? z) = true -> (x <? z) = true.
Proof. rewrite !ltb_spec. exact (SFltb_trans _ _ _). Qed.

Lemma ltb_total x y z :
  (x <? y) = false -> (x <? z) = true -> is_nan y = false -> (y <? z) = true.
Proof. rewrite !ltb_spec, is_nan_spec. exact (SFltb_total _ _ _). Qed.

Lemma ltb_irrefl x : (x <? x) = false.
Proof.
  rewrite ltb_spec. unfold SFltb, SFcompare.
  destruct (Prim2SF x) as [[]|[]| |[] m e]; try reflexivity;
    rewrite Z.compare_refl, Pos.compare_cont_spec, Pos.compare_refl;
    reflexivity.
Qed.

Lemma ltb_not_nan_l x y : (x <? y) = true -> is_nan x = false.
Proof.
  rewrite ltb_spec, is_nan_spec. unfold SFltb, SFcompare.
  destruct (Prim2SF x); try reflexivity. discriminate.
Qed.

Lemma ltb_infinity_l x : (infinity <? x) = false.
Proof.
  rewrite ltb_spec. change (Prim2SF infinity) with (S754_infinity false).
  destruct (Prim2SF x) as [s|s| |s m e]; try destruct s; reflexivity.
Qed.

Lemma notneg_ltb x : notneg x = true -> (x <? 0) = false.
Proof.
  unfold notneg. rewrite ltb_spec. change (Prim2SF 0) with (S754_zero false).
  destruct (Prim2SF x) as [s|s| |s m e]; try destruct s; cbn; congruence.
Qed.

Lemma notneg_leb x : notneg x = true -> is_nan x = false -> (0 <=? x) = true.
Proof.
  unfold notneg. rewrite leb_spec, is_nan_spec.
  change (Prim2SF 0) with (S754_zero false).
  destruct (Prim2SF x) as [s|s| |s m e]; try destruct s; cbn; congruence.
Qed.

Lemma notneg_square x : notneg (x * x) = true.
Proof. unfold notneg. rewrite mul_spec. exact (SFmul_self_notneg _). Qed.

Lemma notneg_add x y :
  notneg x = true -> notneg y = true -> notneg (x + y) = true.
Proof.
  unfold notneg. intros Hx Hy. rewrite add_spec. exact (SFadd_notneg _ _ Hx Hy).
Qed.

Lemma notneg_sqrt x : notneg x = true -> notneg (PrimFloat.sqrt x) = true.
Proof.
  unfold notneg. intros Hx. rewrite sqrt_spec. exact (SFsqrt_notneg _ Hx).
Qed.

Lemma notneg_sum_squares x y z : notneg (x * x + y * y + z * z) = true.
Proof. auto using notneg_add, notneg_square. Qed.

(** [x - x] is [+0] for every finite [x]. *)
Lemma SFsub_diag x : sf_is_finite x = true -> SF64sub x x = S754_zero false.
Proof.
  destruct x as [s|s| |s m e]; try discriminate; intros _.
  - now destruct s.
  - unfold SF64sub, SFsub. rewrite Z.sub_diag. reflexivity.
Qed.

Lemma sub_diag x : is_finite x = true -> x - x = 0.
Proof.
  rewrite is_finite_spec. intros H. apply Prim2SF_inj.
  rewrite sub_spec, (SFsub_diag _ H). reflexivity.
Qed.

(** A float that is not below the degenerate-segment guard is not a zero:
    the division the guard protects cannot raise. *)
Lemma guard_decoded :
  Prim2SF 1e-10 = S754_finite false 7737125245533627 (-86).
Proof. vm_compute. reflexivity. Qed.

Lemma zero_below_guard x : (x <? 1e-10) = false -> (x =? 0) = false.
Proof.
  rewrite ltb_spec, eqb_spec, guard_decoded.
  change (Prim2SF 0) with (S754_zero false).
  destruct (Prim2SF x) as [s|s| |s m e]; try destruct s;
    unfold SFltb, SFeqb, SFcompare; congruence.
Qed.

(** ** The distance routine on well-formed points *)

(** [math.sqrt] of a sum of three squares never raises. *)
Lemma math_sqrt_sum_squares x y z :
  math_sqrt (x * x + y * y + z * z) = Ok (PrimFloat.sqrt (x * x + y * y + z * z)).
Proof.
  unfold math_sqrt. now rewrite (notneg_ltb _ (notneg_sum_squares x y z)).
Qed.

(** On a point given as a list of three numbers the routine returns, and
    what it returns is the distance of the specification. *)
Lemma point_to_segment_distance_total P A B :
  _point_to_segment_distance (point_value P) A B = Ok (segment_distance P A B).
Proof.
  destruct P as [[px py] pz], A as [[ax ay] az], B as [[bx by'] bz].
  unfold _point_to_segment_distance, segment_distance, degenerate_threshold.
  cbn [point_value unpack3 bind value_sub as_float vsub vdot].
  destruct (_ <? 1e-10) eqn:Hguard.
  - apply math_sqrt_sum_squares.
  - unfold py_div. rewrite (zero_below_guard _ Hguard).
    cbn [bind]. apply math_sqrt_sum_squares.
Qed.

(** The zone test on a point given as a list of three numbers. *)
Lemma is_in_zone_total self p center :
  _is_in_zone self (point_value p) center = Ok (in_zone p center (zone_radius self)).
Proof.
  destruct p as [[px py] pz], center as [[cx cy] cz].
  unfold _is_in_zone, in_zone, euclidean_distance, vnorm.
  cbn [point_value subscript nth_error bind value_sub as_float vsub vdot].
  now rewrite math_sqrt_sum_squares.
Qed.

(** A distance is never negative. *)
Lemma segment_distance_notneg P A B : notneg (segment_distance P A B) = true.
Proof.
  unfold segment_distance, vnorm.
  destruct (_ <? degenerate_threshold);
    match goal with
    | |- context [vdot ?u ?u] => destruct u as [[x y] z]
    end; apply notneg_sqrt, notneg_sum_squares.
Qed.

(** On a point given as a list of three floats the routine never raises:
    the guard keeps a zero divisor out of the division, and [math.sqrt] is
    applied to sums of squares only; what it returns is never below zero. *)
Theorem distance_routine_never_raises (P A B : Point) :
  exists d,
    _point_to_segment_distance (point_value P) A B = Ok d
    /\ (d <? 0) = false.
Proof.
  exists (segment_distance P A B). split.
  - apply point_to_segment_distance_total.
  - apply notneg_ltb, segment_distance_notneg.
Qed.

(** C2. For every point P and segment endpoints A, B the distance routine
    returns |P - A| when v.v < 1e-10 for v = B - A, and otherwise
    |P - (A + t v)| with t = clamp((P - A).v / v.v, 0, 1); in particular,
    for a degenerate segment (A = B, a point of finite coordinates) the
    result is the Euclidean distance from P to A. *)
Theorem C2_point_to_segment_distance_formula (P A B : Point) :
  let v := vsub B A in
  let w := vsub P A in
  _point_to_segment_distance (point_value P) A B =
    Ok (if vdot v v <? 1e-10 then vnorm w
        else vnorm (vsub P (vadd A (vscale (clamp01 (vdot w v / vdot v v)) v))))
  /\ (point_finite A = true ->
      _point_to_segment_distance (point_value P) A A =
        Ok (euclidean_distance P A)).
Proof.
  split.
  - apply point_to_segment_distance_total.
  - intros Hfin. rewrite point_to_segment_distance_total. f_equal.
    destruct A as [[ax ay] az], P as [[px py] pz].
    cbn [point_finite] in Hfin.
    apply andb_prop in Hfin as [Hxy Hz]. apply andb_prop in Hxy as [Hx Hy].
    unfold segment_distance, euclidean_distance. cbn [vsub].
    rewrite !sub_diag by assumption. reflexivity.
Qed.

(** A degenerate segment at a finite point: the 3-4-5 triangle. *)
Example degenerate_segment_distance :
  _point_to_segment_distance (point_value (3, 4, 0)) (0, 0, 0) (0, 0, 0) = Ok 5.
Proof. vm_compute. reflexivity. Qed.

(** Why the coordinates of A are taken finite: at an infinite coordinate
    [B - A] is NaN, the guard does not fire and the routine returns NaN, while
    the Euclidean distance from a finite P is infinite. *)
Example degenerate_segment_at_infinity :
  let A : Point := (infinity, 0, 0) in
  let P : Point := (0, 0, 0) in
  _point_to_segment_distance (point_value P) A A = Ok nan
  /\ euclidean_distance P A = infinity.
Proof. vm_compute. auto. Qed.

(** ** The running minimum *)

(** The loops keep a running minimum with [min], starting from
    [+infinity]: a NaN is never selected, what is kept is the start value or
    one of the inputs, and nothing seen is below it. *)
Lemma fold_py_min_spec ds :
  forall acc,
    is_nan acc = false ->
    let m := fold_left py_min ds acc in
    is_nan m = false
    /\ (m = acc \/ In m ds)
    /\ (acc <? m) = false
    /\ (forall d, In d ds -> (d <? m) = false).
Proof.
  induction ds as [|d ds IH]; intros acc Hacc; cbv zeta; cbn [fold_left].
  - repeat split; auto using ltb_irrefl. intros d [].
  - change (py_min acc d) with (if d <? acc then d else acc).
    destruct (d <? acc) eqn:Hd.
    + destruct (IH d (ltb_not_nan_l _ _ Hd)) as (Hm & Hin & Hle & Hall).
      repeat split.
      * exact Hm.
      * destruct Hin as [-> | Hin]; right; [now left | now right].
      * destruct (acc <? fold_left py_min ds d) eqn:E; [|reflexivity].
        rewrite (ltb_trans _ _ _ Hd E) in Hle. discriminate.
      * intros d' [<- | Hd']; [exact Hle | now apply Hall].
    + destruct (IH acc Hacc) as (Hm & Hin & Hle & Hall).
      repeat split.
      * exact Hm.
      * destruct Hin as [-> | Hin]; [now left | right; now right].
      * exact Hle.
      * intros d' [<- | Hd']; [|now apply Hall].
        destruct (d <? fold_left py_min ds acc) eqn:E; [|reflexivity].
        rewrite (ltb_total _ _ _ Hd E Hacc) in Hle. discriminate.
Qed.

Lemma running_min_spec ds :
  let m := running_min ds in
  is_nan m = false
  /\ (m = infinity \/ In m ds)
  /\ (forall d, In d ds -> (d <? m) = false).
Proof.
  destruct (fold_py_min_spec ds infinity eq_refl) as (H1 & H2 & _ & H3).
  cbv zeta. auto.
Qed.

(** The minimum over the points of the minimum over the segments is the
    minimum of all the distances. *)
Lemma min_distance_to_track_is_minimum track points :
  is_minimum (min_distance_to_track track points) (distances points track).
Proof.
  unfold min_distance_to_track, distances.
  destruct (running_min_spec (map (track_distance track) points))
    as (Hnan & Hin & Hall).
  split; [exact Hnan|]. split.
  - intros d Hd. apply in_flat_map in Hd as (p & Hp & Hd).
    destruct (running_min_spec
                (map (fun s => segment_distance p (fst s) (snd s))
                   (segments track))) as (Hnan' & _ & Hall').
    specialize (Hall' d Hd). fold (track_distance track p) in Hall', Hnan'.
    specialize (Hall (track_distance track p) (in_map _ _ _ Hp)).
    destruct (d <? running_min (map (track_distance track) points)) eqn:E;
      [|reflexivity].
    rewrite (ltb_total _ _ _ Hall' E Hnan') in Hall. discriminate.
  - destruct Hin as [Hinf | Hin]; [now left|].
    apply in_map_iff in Hin as (p & Hp & Hin).
    destruct (running_min_spec
                (map (fun s => segment_distance p (fst s) (snd s))
                   (segments track))) as (_ & [Hinf | Hin'] & _).
    + left. rewrite <- Hp. exact Hinf.
    + right. rewrite <- Hp. apply in_flat_map. exists p. split; assumption.
Qed.

(** A minimum is below a threshold exactly when one of the distances is. *)
Lemma is_minimum_below m ds threshold :
  is_minimum m ds ->
  ((m <? threshold) = true <->
   exists d, In d ds /\ (d <? threshold) = true).
Proof.
  intros (Hnan & Hall & Hin). split.
  - intros Hm. destruct Hin as [-> | Hin].
    + now rewrite ltb_infinity_l in Hm.
    + now exists m.
  - intros (d & Hd & Hlt). exact (ltb_total _ _ _ (Hall d Hd) Hlt Hnan).
Qed.

(** A minimum of distances is reported as it is: it is not below zero. *)
Lemma min_distance_to_track_reported track points :
  (0 <=? min_distance_to_track track points) = true.
Proof.
  destruct (min_distance_to_track_is_minimum track points)
    as (Hnan & _ & Hin).
  apply notneg_leb; [|exact Hnan].
  destruct Hin as [-> | Hin]; [reflexivity|].
  apply in_flat_map in Hin as (p & _ & Hin).
  apply in_map_iff in Hin as (seg & <- & _).
  apply segment_distance_notneg.
Qed.

(** The two loops on well-formed points. *)
Lemma track_loop_total p track :
  forall acc,
    track_loop (point_value p) track acc =
    Ok (fold_left py_min
          (map (fun s => segment_distance p (fst s) (snd s)) (segments track))
          acc).
Proof.
  induction track as [|a [|b rest] IH]; intros acc; try reflexivity.
  cbn [track_loop segments map fold_left fst snd].
  rewrite point_to_segment_distance_total. cbn [bind]. apply IH.
Qed.

Lemma points_loop_total self points :
  forall acc,
    points_loop self (map point_value points) acc =
    Ok (fold_left py_min (map (track_distance (track_points self)) points) acc).
Proof.
  induction points as [|p points IH]; intros acc; [reflexivity|].
  cbn [points_loop map fold_left]. unfold _calculate_min_distance_to_track.
  rewrite track_loop_total. cbn [bind]. apply IH.
Qed.

(** ** The session state machine *)

(** Evaluation of attribute reads after assignments.  The assignments are
    evaluated innermost first, so that a chain of them costs one pass. *)
Ltac game_simpl :=
  cbv beta iota zeta delta
    [reset start_game get_track touch_start fst snd
     set_game_started set_game_completed set_timing_started set_start_time
     set_elapsed_time set_collision_count set_is_colliding
     set_last_collision_time set_cooldown
     collision_threshold track_points start_zone end_zone zone_radius
     game_started game_completed timing_started start_time elapsed_time
     collision_count is_colliding last_collision_time cooldown].

(** Attribute reads of a game written out attribute by attribute. *)
Ltac fields :=
  cbn [fst snd
       collision_threshold track_points start_zone end_zone zone_radius
       game_started game_completed timing_started start_time elapsed_time
       collision_count is_colliding last_collision_time cooldown] in *.

(** What each block of [update] assigns, attribute by attribute. *)
Lemma touch_start_eq self now :
  touch_start self now =
  {| collision_threshold := collision_threshold self;
     track_points := track_points self;
     start_zone := start_zone self;
     end_zone := end_zone self;
     zone_radius := zone_radius self;
     game_started := game_started self;
     game_completed := game_completed self;
     timing_started := true;
     start_time := Some (at_start now);
     elapsed_time := elapsed_time self;
     collision_count := collision_count self;
     is_colliding := is_colliding self;
     last_collision_time := last_collision_time self;
     cooldown := cooldown self |}.
Proof. destruct self. game_simpl. reflexivity. Qed.

Lemma refresh_elapsed_time_eq self now :
  refresh_elapsed_time self now =
  {| collision_threshold := collision_threshold self;
     track_points := track_points self;
     start_zone := start_zone self;
     end_zone := end_zone self;
     zone_radius := zone_radius self;
     game_started := game_started self;
     game_completed := game_completed self;
     timing_started := timing_started self;
     start_time := start_time self;
     elapsed_time :=
       match start_time self with
       | Some t => if truthy t then at_elapsed now - t else elapsed_time self
       | None => elapsed_time self
       end;
     collision_count := collision_count self;
     is_colliding := is_colliding self;
     last_collision_time := last_collision_time self;
     cooldown := cooldown self |}.
Proof.
  destruct self as [? ? ? ? ? ? ? ? [t|] ? ? ? ? ?];
    unfold refresh_elapsed_time; game_simpl; [|reflexivity].
  destruct (truthy t); reflexivity.
Qed.

Lemma detect_collision_eq self min_distance current_time :
  detect_collision self min_distance current_time =
  {| collision_threshold := collision_threshold self;
     track_points := track_points self;
     start_zone := start_zone self;
     end_zone := end_zone self;
     zone_radius := zone_radius self;
     game_started := game_started self;
     game_completed := game_completed self;
     timing_started := timing_started self;
     start_time := start_time self;
     elapsed_time := elapsed_time self;
     collision_count :=
       if counts_collision self min_distance current_time
       then (collision_count self + 1)%Z else collision_count self;
     is_colliding := min_distance <? collision_threshold self;
     last_collision_time :=
       if counts_collision self min_distance current_time
       then current_time else last_collision_time self;
     cooldown := cooldown self |}.
Proof.
  destruct self as [thr tr sz ez zr gs gc ts st el cc ic lc cd].
  unfold detect_collision, counts_collision. game_simpl.
  destruct (min_distance <? thr), ic, (cd <? current_time - lc); reflexivity.
Qed.

Lemma set_game_completed_eq b self :
  set_game_completed b self =
  {| collision_threshold := collision_threshold self;
     track_points := track_points self;
     start_zone := start_zone self;
     end_zone := end_zone self;
     zone_radius := zone_radius self;
     game_started := game_started self;
     game_completed := b;
     timing_started := timing_started self;
     start_time := start_time self;
     elapsed_time := elapsed_time self;
     collision_count := collision_count self;
     is_colliding := is_colliding self;
     last_collision_time := last_collision_time self;
     cooldown := cooldown self |}.
Proof. reflexivity. Qed.

Section Session.

Variable py_round : float -> Z -> float.

(** Case analysis of one [update] call: every test of the call is decided,
    then the assignments made on that path are written out. *)
Ltac update_cases :=
  unfold update;
  repeat match goal with
    | |- context [match ?r with Ok _ => _ | Raise _ => _ end] =>
        destruct r as [?|?] eqn:?
    | |- context [if ?b then _ else _] => destruct b eqn:?
    end;
  rewrite ?set_game_completed_eq, ?detect_collision_eq,
    ?refresh_elapsed_time_eq, ?touch_start_eq;
  fields.

(** The first test of [update]. *)
Lemma update_outside_session self positions now :
  game_started self = false \/ game_completed self = true ->
  update py_round self positions now =
    (self, Ok (get_state py_round self no_distance)).
Proof.
  intros H. unfold update. destruct H as [-> | ->]; [reflexivity|].
  now rewrite orb_true_r.
Qed.

(** C3. While the game is not started, or once it is completed, [update]
    changes no attribute of the session, whatever the input, and returns the
    current snapshot with the distance reported as -1. *)
Theorem C3_update_outside_session_is_noop
  (self : BuzzWireGame) (positions : value) (now : Clock) :
  game_started self = false \/ game_completed self = true ->
  update py_round self positions now =
    (self, Ok (get_state py_round self no_distance))
  /\ State.distance_to_track (get_state py_round self no_distance) = PyInt (-1).
Proof.
  intros H. split; [|reflexivity]. now apply update_outside_session.
Qed.

(** The attributes fixed at construction, as [get_track] reports them, are
    changed by no operation. *)
Lemma get_track_reset self : get_track (reset self) = get_track self.
Proof. destruct self. game_simpl. reflexivity. Qed.

Lemma get_track_start_game self : get_track (start_game self) = get_track self.
Proof. destruct self. game_simpl. reflexivity. Qed.

Lemma get_track_update self positions now :
  get_track (fst (update py_round self positions now)) = get_track self.
Proof. update_cases; reflexivity. Qed.

Lemma cooldown_update self positions now :
  cooldown (fst (update py_round self positions now)) = cooldown self.
Proof. update_cases; reflexivity. Qed.

Lemma get_track_run calls :
  forall self, get_track (run py_round self calls) = get_track self.
Proof.
  induction calls as [|c calls IH]; intros self; [reflexivity|].
  cbn [run fold_left]. fold (run py_round (step py_round self c) calls).
  rewrite IH. destruct c; cbn [step].
  - apply get_track_reset.
  - apply get_track_start_game.
  - apply get_track_update.
Qed.

(** The track, the zones and the threshold are fixed at construction: no
    sequence of calls changes them, so in every reachable game the track is
    the one of [_define_track], the zones are its first and last points and
    the radius is 0.1. *)
Theorem track_fixed_at_construction (threshold : float) (calls : list call) :
  let g := run py_round (__init__ threshold) calls in
  get_track g = get_track (__init__ threshold)
  /\ track_points g = _define_track
  /\ start_zone g = (-0.5, 1.0, 0.0)
  /\ end_zone g = (0.8, 1.1, 0.0)
  /\ zone_radius g = 0.1
  /\ collision_threshold g = threshold.
Proof.
  cbv zeta. pose proof (get_track_run calls (__init__ threshold)) as H.
  split; [exact H|].
  unfold get_track in H. injection H as -> -> -> -> ->.
  repeat split; reflexivity.
Qed.

Lemma start_game_idempotent self :
  start_game (start_game self) = start_game self.
Proof. destruct self. game_simpl. reflexivity. Qed.

(** C8. [start_game] produces one and the same session state from every
    prior state: started, not timing, not completed, no collision, timer
    unset, elapsed time 0; every session attribute is assigned, so calling
    it again changes nothing. *)
Theorem C8_start_game_full_reset (self : BuzzWireGame) :
  let s := start_game self in
  (game_started s = true /\ game_completed s = false
   /\ timing_started s = false /\ start_time s = None
   /\ elapsed_time s = 0 /\ collision_count s = 0%Z
   /\ is_colliding s = false /\ last_collision_time s = 0
   /\ cooldown s = 0.5)
  /\ get_track s = get_track self
  /\ (forall other, get_track other = get_track self ->
        start_game other = s)
  /\ start_game s = s
  /\ (forall n, Nat.iter (S n) start_game self = s).
Proof.
  cbv zeta. split; [destruct self; game_simpl; repeat split|].
  split; [apply get_track_start_game|].
  split.
  { intros other H. destruct other, self. game_simpl.
    injection H as -> -> -> -> ->. reflexivity. }
  split; [apply start_game_idempotent|].
  induction n as [|n IH]; [reflexivity|].
  change (Nat.iter (S (S n)) start_game self)
    with (start_game (Nat.iter (S n) start_game self)).
  rewrite IH. apply start_game_idempotent.
Qed.

(** A completed game is left as it is by any sequence of [update] calls. *)
Lemma run_updates_completed self calls :
  game_completed self = true -> run_updates py_round self calls = self.
Proof.
  intros H. induction calls as [|[positions now] calls IH]; [reflexivity|].
  unfold run_updates in *. cbn [fold_left fst snd].
  rewrite (update_outside_session self positions now (or_intror H)).
  exact IH.
Qed.

(** C6. Once [game_completed] is true, [elapsed_time] keeps the value it has,
    whatever [update] calls follow (the game as a whole is left unchanged);
    only [start_game] or [reset] replaces it. *)
Theorem C6_elapsed_time_frozen_after_completion
  (self : BuzzWireGame) (calls : list (value * Clock)) :
  game_completed self = true ->
  elapsed_time (run_updates py_round self calls) = elapsed_time self
  /\ game_completed (run_updates py_round self calls) = true
  /\ run_updates py_round self calls = self.
Proof.
  intros H. rewrite (run_updates_completed self calls H). auto.
Qed.

Lemma flags_consistent_init threshold : flags_consistent (__init__ threshold).
Proof. unfold flags_consistent, __init__. game_simpl. discriminate. Qed.

Lemma flags_consistent_reset self : flags_consistent (reset self).
Proof. destruct self. unfold flags_consistent. game_simpl. discriminate. Qed.

Lemma flags_consistent_start_game self : flags_consistent (start_game self).
Proof. destruct self. unfold flags_consistent. game_simpl. discriminate. Qed.

Lemma flags_consistent_update self positions now :
  flags_consistent self ->
  flags_consistent (fst (update py_round self positions now)).
Proof.
  unfold flags_consistent. intros Hinv. update_cases; try exact Hinv;
    destruct (game_started self), (timing_started self), (game_completed self);
    cbn in *; try discriminate; auto.
Qed.

Lemma flags_consistent_run calls :
  forall self, flags_consistent self -> flags_consistent (run py_round self calls).
Proof.
  induction calls as [|c calls IH]; intros self H; [exact H|].
  apply IH. destruct c; cbn [step].
  - apply flags_consistent_reset.
  - apply flags_consistent_start_game.
  - now apply flags_consistent_update.
Qed.

(** C7. In every state reachable from a fresh game by [reset], [start_game]
    and [update] calls, a completed game is started and timing. *)
Theorem C7_completed_implies_started_and_timing (self : BuzzWireGame) :
  reachable py_round self ->
  game_completed self = true ->
  game_started self = true /\ timing_started self = true.
Proof.
  intros (threshold & calls & ->).
  apply flags_consistent_run, flags_consistent_init.
Qed.

(** One [update] call either counts a collision (the flag rose and the
    cooldown was over) or leaves the count and its time stamp alone. *)
Lemma update_collision_count self positions now :
  let self' := fst (update py_round self positions now) in
  let current_time := at_collision now in
  let counted :=
    is_colliding self = false /\ is_colliding self' = true
    /\ (cooldown self <? current_time - last_collision_time self) = true in
  (counted
   /\ collision_count self' = (collision_count self + 1)%Z
   /\ last_collision_time self' = current_time)
  \/ (~ counted
      /\ collision_count self' = collision_count self
      /\ last_collision_time self' = last_collision_time self).
Proof.
  cbv zeta. update_cases;
    try (right; split; [intros (H1 & H2 & _); congruence | split; reflexivity]);
    unfold counts_collision; fields;
    destruct (_ <? collision_threshold self), (is_colliding self),
             (cooldown self <? _); cbn;
    try (left; repeat split; reflexivity);
    right; (split; [intros (H1 & H2 & H3); congruence | split; reflexivity]).
Qed.

Lemma collision_count_update_le self positions now :
  (collision_count self
   <= collision_count (fst (update py_round self positions now)))%Z.
Proof.
  destruct (update_collision_count self positions now)
    as [(_ & -> & _) | (_ & -> & _)]; lia.
Qed.

Lemma collision_count_run_updates_le calls :
  forall self,
    (collision_count self <= collision_count (run_updates py_round self calls))%Z.
Proof.
  induction calls as [|[positions now] calls IH]; intros self; [cbn; lia|].
  unfold run_updates in *. cbn [fold_left fst snd].
  etransitivity; [apply (collision_count_update_le self positions now)|apply IH].
Qed.

Lemma increment_times_spaced calls :
  forall self,
    spaced (cooldown self) (last_collision_time self)
      (increment_times py_round self calls).
Proof.
  induction calls as [|[positions now] calls IH]; intros self; [exact I|].
  cbn [increment_times].
  specialize (IH (fst (update py_round self positions now))).
  rewrite cooldown_update in IH.
  destruct (update_collision_count self positions now)
    as [((_ & _ & Hcool) & Hcount & Hlast) | (_ & Hcount & Hlast)];
    rewrite Hcount, Hlast in *.
  - replace (_ <? _)%Z with true by (symmetry; apply Z.ltb_lt; lia).
    cbn [spaced]. auto.
  - rewrite Z.ltb_irrefl. exact IH.
Qed.

Lemma cooldown_run calls :
  forall self, cooldown self = 0.5 -> cooldown (run py_round self calls) = 0.5.
Proof.
  induction calls as [|c calls IH]; intros self H; [exact H|].
  apply IH. destruct c; cbn [step].
  - destruct self; reflexivity.
  - destruct self; reflexivity.
  - now rewrite cooldown_update.
Qed.

(** C1. An [update] call raises [collision_count] by exactly 1 when
    [is_colliding] goes from false to true and the current time minus
    [last_collision_time] exceeds [cooldown], and then records the current
    time; in every other case the count and the time stamp are unchanged.
    Hence over any sequence of [update] calls the count never decreases, and
    two increments are always more than [cooldown] apart (the first one
    counted from the time stamp the sequence starts with).  Of all the
    operations only [reset] and [start_game], which begin a new session,
    lower the count, to 0; [cooldown] is 0.5 in every reachable game. *)
Theorem C1_collision_counting
  (self : BuzzWireGame) (positions : value) (now : Clock) :
  let self' := fst (update py_round self positions now) in
  let current_time := at_collision now in
  let rising_after_cooldown :=
    is_colliding self = false /\ is_colliding self' = true
    /\ (cooldown self <? current_time - last_collision_time self) = true in
  (rising_after_cooldown ->
     collision_count self' = (collision_count self + 1)%Z
     /\ last_collision_time self' = current_time)
  /\ (~ rising_after_cooldown ->
       collision_count self' = collision_count self
       /\ last_collision_time self' = last_collision_time self)
  /\ (forall calls,
        (collision_count self
         <= collision_count (run_updates py_round self calls))%Z
        /\ spaced (cooldown self) (last_collision_time self)
             (increment_times py_round self calls))
  /\ (forall c,
        (collision_count self <= collision_count (step py_round self c))%Z
        \/ ((c = Reset \/ c = StartGame)
            /\ collision_count (step py_round self c) = 0%Z))
  /\ (reachable py_round self -> cooldown self = 0.5).
Proof.
  cbv zeta.
  pose proof (update_collision_count self positions now) as H. cbv zeta in H.
  split; [|split; [|split; [|split]]].
  - destruct H as [(_ & ? & ?) | (? & _)]; tauto.
  - destruct H as [(? & _) | (_ & ? & ?)]; tauto.
  - intros calls. split.
    + apply collision_count_run_updates_le.
    + apply increment_times_spaced.
  - intros [| |positions' now']; cbn [step].
    + right. split; [now left|]. destruct self; reflexivity.
    + right. split; [now right|]. destruct self; reflexivity.
    + left. apply collision_count_update_le.
  - intros (threshold & calls & ->). apply cooldown_run. reflexivity.
Qed.

(** Once timing has started, [update] never assigns the timer again. *)
Lemma timer_kept_by_update self positions now :
  timing_started self = true ->
  let self' := fst (update py_round self positions now) in
  timing_started self' = true /\ start_time self' = start_time self.
Proof.
  intros H. cbv zeta. update_cases; auto; rewrite H in *; discriminate.
Qed.

Lemma timer_kept_by_run_updates calls :
  forall self,
    timing_started self = true ->
    let self' := run_updates py_round self calls in
    timing_started self' = true /\ start_time self' = start_time self.
Proof.
  induction calls as [|[positions now] calls IH]; intros self H; [now split|].
  destruct (timer_kept_by_update self positions now H) as [Ht Hs].
  unfold run_updates in *. cbn [fold_left fst snd]. cbv zeta in *.
  rewrite <- Hs. now apply IH.
Qed.

(** The input made a list of points. *)
Lemma normalize_points p others :
  normalize (VList (point_value p :: others)) = Ok (point_value p :: others).
Proof. destruct p as [[x y] z]. reflexivity. Qed.

Lemma normalize_single_point p :
  normalize (point_value p) = Ok [point_value p].
Proof. destruct p as [[x y] z]. reflexivity. Qed.

(** The arming phase on a well-formed primary point. *)
Lemma update_arming self p others now :
  game_started self = true -> game_completed self = false ->
  timing_started self = false ->
  update py_round self (VList (point_value p :: others)) now =
    let self' :=
      if in_zone p (start_zone self) (zone_radius self)
      then touch_start self now else self in
    (self', Ok (get_state py_round self' no_distance)).
Proof.
  intros Hs Hc Ht. unfold update.
  rewrite Hs, Hc, Ht, normalize_points. cbn [negb orb first_point_of].
  now rewrite is_in_zone_total.
Qed.

(** C4. With the game started, not completed and not yet timing, [update]
    tests the primary point alone against the start zone (its Euclidean
    distance to the zone centre below [zone_radius]): inside, it sets
    [timing_started] and records the current time as [start_time]; either
    way it returns at once, no collision attribute touched, the distance
    reported as -1.  Once timing has started no later [update] assigns the
    timer again.  In every reachable game the start zone is the first track
    point and the radius is 0.1. *)
Theorem C4_arming_phase
  (self : BuzzWireGame) (p : Point) (others : list value) (now : Clock) :
  game_started self = true ->
  game_completed self = false ->
  timing_started self = false ->
  let inside := in_zone p (start_zone self) (zone_radius self) in
  let result := update py_round self (VList (point_value p :: others)) now in
  let self' := fst result in
  (timing_started self' = inside
   /\ start_time self' = if inside then Some (at_start now) else start_time self)
  /\ (game_started self' = true /\ game_completed self' = false
      /\ elapsed_time self' = elapsed_time self
      /\ collision_count self' = collision_count self
      /\ is_colliding self' = is_colliding self
      /\ last_collision_time self' = last_collision_time self)
  /\ (snd result = Ok (get_state py_round self' no_distance)
      /\ State.distance_to_track (get_state py_round self' no_distance)
         = PyInt (-1))
  /\ update py_round self (point_value p) now
     = update py_round self (VList [point_value p]) now
  /\ (inside = true ->
      forall calls,
        let later := run_updates py_round self' calls in
        timing_started later = true /\ start_time later = Some (at_start now))
  /\ (forall threshold calls,
        let g := run py_round (__init__ threshold) calls in
        start_zone g = hd (0, 0, 0) _define_track /\ zone_radius g = 0.1).
Proof.
  intros Hs Hc Ht. cbv zeta.
  rewrite (update_arming self p others now Hs Hc Ht). cbv zeta. cbn [fst snd].
  split; [|split; [|split; [|split; [|split]]]].
  - destruct (in_zone _ _ _); [rewrite touch_start_eq; fields|]; auto.
  - destruct (in_zone _ _ _); [rewrite touch_start_eq; fields|]; auto 10.
  - auto.
  - unfold update. now rewrite normalize_single_point, normalize_points.
  - intros Hin calls. rewrite Hin.
    destruct (timer_kept_by_run_updates calls (touch_start self now))
      as [H1 H2]; [now rewrite touch_start_eq|].
    split; [exact H1|]. rewrite H2. now rewrite touch_start_eq.
  - intros threshold calls.
    pose proof (get_track_run calls (__init__ threshold)) as H.
    unfold get_track in H. injection H as _ H1 _ H2 _.
    rewrite H1, H2. split; reflexivity.
Qed.

(** The timing phase on a list of well-formed points (the empty list
    included: its primary point is the origin). *)
Lemma update_timing self points now :
  game_started self = true -> game_completed self = false ->
  timing_started self = true ->
  update py_round self (VList (map point_value points)) now =
    let m := min_distance_to_track (track_points self) points in
    let self1 :=
      detect_collision (refresh_elapsed_time self now) m (at_collision now) in
    let self2 :=
      if in_zone (hd (0, 0, 0) points) (end_zone self) (zone_radius self)
      then set_game_completed true self1 else self1 in
    (self2, Ok (get_state py_round self2 m)).
Proof.
  intros Hs Hc Ht. unfold update. rewrite Hs, Hc, Ht. cbn [negb orb].
  assert (Hn : normalize (VList (map point_value points))
               = Ok (map point_value points)).
  { destruct points as [|p points]; [reflexivity|apply normalize_points]. }
  assert (Hf : first_point_of (map point_value points)
               = point_value (hd (0, 0, 0) points)).
  { destruct points; reflexivity. }
  rewrite Hn, Hf. cbv zeta. rewrite points_loop_total, is_in_zone_total.
  fold (running_min (map (track_distance
                            (track_points (refresh_elapsed_time self now)))
                       points)).
  fold (min_distance_to_track (track_points (refresh_elapsed_time self now))
          points).
  assert (Ht1 : track_points (refresh_elapsed_time self now)
                = track_points self)
    by (rewrite refresh_elapsed_time_eq; reflexivity).
  rewrite Ht1.
  set (self1 := detect_collision _ _ _).
  assert (He : end_zone self1 = end_zone self)
    by (unfold self1; rewrite detect_collision_eq, refresh_elapsed_time_eq;
        reflexivity).
  assert (Hr : zone_radius self1 = zone_radius self)
    by (unfold self1; rewrite detect_collision_eq, refresh_elapsed_time_eq;
        reflexivity).
  rewrite He, Hr. reflexivity.
Qed.

(** C5. In the timing phase, on a sequence of well-formed points,
    [is_colliding] is set to true exactly when the minimum m, over all the
    input points and all the segments of consecutive track points, of the
    point-to-segment distance is below [collision_threshold], that is when
    some point is that close to some segment; and m, rounded to 4 decimals,
    is the distance the snapshot reports. *)
Theorem C5_collision_is_minimum_below_threshold
  (self : BuzzWireGame) (points : list Point) (now : Clock) :
  game_started self = true ->
  game_completed self = false ->
  timing_started self = true ->
  let ds := distances points (track_points self) in
  let m := min_distance_to_track (track_points self) points in
  let result := update py_round self (VList (map point_value points)) now in
  is_minimum m ds
  /\ is_colliding (fst result) = (m <? collision_threshold self)
  /\ (is_colliding (fst result) = true <->
      exists d, In d ds /\ (d <? collision_threshold self) = true)
  /\ exists snapshot,
       snd result = Ok snapshot
       /\ State.distance_to_track snapshot = PyFloat (py_round m 4)
       /\ State.is_colliding snapshot = (m <? collision_threshold self).
Proof.
  intros Hs Hc Ht. cbv zeta.
  rewrite (update_timing self points now Hs Hc Ht). cbv zeta. cbn [fst snd].
  set (m := min_distance_to_track (track_points self) points).
  pose proof (min_distance_to_track_is_minimum (track_points self) points)
    as Hmin. fold m in Hmin.
  assert (Hcol :
    forall b : bool,
      is_colliding
        (if b
         then set_game_completed true
                (detect_collision (refresh_elapsed_time self now) m
                   (at_collision now))
         else detect_collision (refresh_elapsed_time self now) m
                (at_collision now))
      = (m <? collision_threshold self)).
  { intros []; rewrite ?set_game_completed_eq, detect_collision_eq,
      refresh_elapsed_time_eq; reflexivity. }
  split; [exact Hmin|]. split; [apply Hcol|]. split.
  - rewrite Hcol. now apply is_minimum_below.
  - eexists. split; [reflexivity|]. split.
    + unfold get_state. cbn [State.distance_to_track].
      unfold m. now rewrite min_distance_to_track_reported.
    + unfold get_state. cbn [State.is_colliding]. apply Hcol.
Qed.

(** C10. On the empty list [update] does not fail.  The primary point is
    the origin: before timing, it alone decides whether the timer starts;
    in the timing phase the minimum over no point is +infinity, so
    [is_colliding] is set to false, [collision_count] is unchanged, and the
    origin decides completion. *)
Theorem C10_empty_positions (self : BuzzWireGame) (now : Clock) :
  game_started self = true ->
  game_completed self = false ->
  let result := update py_round self (VList []) now in
  let self' := fst result in
  let origin : Point := (0, 0, 0) in
  first_point_of [] = point_value origin
  /\ points_loop self [] infinity = Ok infinity
  /\ snd result =
     Ok (get_state py_round self'
           (if timing_started self then infinity else no_distance))
  /\ (timing_started self = false ->
      timing_started self' = in_zone origin (start_zone self) (zone_radius self)
      /\ is_colliding self' = is_colliding self
      /\ collision_count self' = collision_count self)
  /\ (timing_started self = true ->
      is_colliding self' = false
      /\ collision_count self' = collision_count self
      /\ game_completed self' = in_zone origin (end_zone self) (zone_radius self)
      /\ State.distance_to_track (get_state py_round self' infinity)
         = PyFloat (py_round infinity 4)).
Proof.
  intros Hs Hc. cbv zeta.
  split; [reflexivity|]. split; [reflexivity|].
  destruct (timing_started self) eqn:Ht.
  - change (VList []) with (VList (map point_value [])).
    rewrite (update_timing self [] now Hs Hc Ht). cbv zeta. cbn [fst snd hd].
    change (min_distance_to_track (track_points self) []) with infinity.
    split; [reflexivity|]. split; [discriminate|]. intros _.
    destruct (in_zone _ _ _);
      rewrite ?set_game_completed_eq, detect_collision_eq,
        refresh_elapsed_time_eq; unfold counts_collision; fields;
      rewrite ltb_infinity_l; cbn [andb]; auto.
  - unfold update. rewrite Hs, Hc, Ht. cbn [negb orb normalize first_point_of].
    change (VList [VNum 0; VNum 0; VNum 0]) with (point_value (0, 0, 0)).
    rewrite is_in_zone_total. cbn [fst snd].
    split; [reflexivity|]. split; [|discriminate]. intros _.
    destruct (in_zone _ _ _); [rewrite touch_start_eq; fields|]; auto.
Qed.

End Session.

(** ** Distance zero and points of the segment *)



(** The value the routine returns there. *)
Example short_segment_distance :
  _point_to_segment_distance (point_value (1e-6, 0, 0)) (0, 0, 0) (1e-6, 0, 0)
  = Ok 9.9999999999999995e-07.
Proof. vm_compute. reflexivity. Qed.

(** In binary64 the equivalence also fails away from the guard, in both
    directions.  A zero is returned off the segment: on the segment from
    (0,0,0) to (1,0,0) the point (0.5, 1e-200, 0) is off the segment, yet the
    square of its offset underflows and the routine returns 0. *)
Lemma zero_plus_multiple_of_zero (t : float) :
  Prim2SF (0 + t * 0) = S754_zero false \/ Prim2SF (0 + t * 0) = S754_nan.
Proof.
  rewrite add_spec, mul_spec. change (Prim2SF 0) with (S754_zero false).
  destruct (Prim2SF t) as [[]|[]| |[] m e]; cbn; auto.
Qed.

Lemma zero_distance_off_segment_by_underflow :
  let P : Point := (0.5, 1e-200, 0) in
  let A : Point := (0, 0, 0) in
  let B : Point := (1, 0, 0) in
  returns_zero (_point_to_segment_distance (point_value P) A B) = true
  /\ ~ on_segment P A B.
Proof.
  cbv zeta. split; [vm_compute; reflexivity|].
  intros (t & _ & _ & H).
  apply (f_equal (fun p : Point => Prim2SF (snd (fst p)))) in H.
  cbn [vadd vscale vsub fst snd] in H.
  change (0 - 0) with 0 in H.
  assert (Hy : Prim2SF 1e-200 = S754_finite false 6894565328877484 (-717))
    by (vm_compute; reflexivity).
  rewrite Hy in H.
  destruct (zero_plus_multiple_of_zero t) as [H0 | H0];
    rewrite H0 in H; discriminate.
Qed.

(** Between the end points the routine need not return 0 on a point of the
    segment, the quotient [t] and the closest point being rounded: on the
    second segment of the track, at the point A + 0.5 (B - A), it returns
    about 5.7e-17. *)
Lemma zero_missed_on_segment_by_rounding :
  let A : Point := (-0.3, 1.1, 0.0) in
  let B : Point := (-0.1, 1.2, 0.05) in
  let P : Point := vadd A (vscale 0.5 (vsub B A)) in
  In (A, B) (segments _define_track)
  /\ on_segment P A B
  /\ _point_to_segment_distance (point_value P) A B
     = Ok 5.7219584981527968e-17.
Proof.
  cbv zeta. split; [|split].
  - right. left. reflexivity.
  - exists 0.5. repeat split.
  - vm_compute. reflexivity.
Qed.

(** *** What a zero distance says in binary64

    Zeros propagate through the operations of the routine: a product with a
    zero, a sum of zeros, a zero divided by a number not below the guard,
    [x - (x + 0)], the square root of a zero. *)
























(** Every point of the game's track is at distance 0 from the segments that
    meet there: the routine returns 0 at both end points of each segment. *)
Lemma track_points_at_distance_zero :
  Forall
    (fun s : Point * Point =>
       returns_zero
         (_point_to_segment_distance (point_value (fst s)) (fst s) (snd s))
       = true
       /\ returns_zero
            (_point_to_segment_distance (point_value (snd s)) (fst s) (snd s))
          = true)
    (segments _define_track).
Proof. repeat constructor. Qed.


(** ** The theorems at work on the sample session *)

(** C3 at work: [update] before [start_game], and after completion on a
    malformed input. *)
Lemma C3_update_outside_session_is_noop_witness :
  game_started fresh_game = false
  /\ update no_rounding fresh_game (point_value (0.8, 1.1, 0.0)) (clock 7)
     = (fresh_game, Ok (get_state no_rounding fresh_game no_distance))
  /\ update no_rounding completed_game (VList [VNum 1]) (clock 140)
     = (completed_game, Ok (get_state no_rounding completed_game no_distance)).
Proof.
  split; [reflexivity|]. split.
  - apply (C3_update_outside_session_is_noop no_rounding fresh_game).
    left. reflexivity.
  - apply (C3_update_outside_session_is_noop no_rounding completed_game).
    right. reflexivity.
Defined.

(** C4 at work: a primary point 0.05 from the start of the wire starts the
    timer at the clock reading 100; the second item of the input, not even a
    point, is not looked at. *)
Lemma C4_arming_phase_witness :
  let p : Point := (-0.45, 1.0, 0.0) in
  let result :=
    update no_rounding started_game (VList [point_value p; VNum 3]) (clock 100) in
  in_zone p (start_zone started_game) (zone_radius started_game) = true
  /\ timing_started (fst result) = true
  /\ start_time (fst result) = Some 100.
Proof.
  cbv zeta.
  pose proof (C4_arming_phase no_rounding started_game (-0.45, 1.0, 0.0)
                [VNum 3] (clock 100) eq_refl eq_refl eq_refl) as H.
  cbv zeta in H. destruct H as [[Ht Hs] _].
  split; [vm_compute; reflexivity|]. split.
  - rewrite Ht. vm_compute. reflexivity.
  - rewrite Hs. vm_compute. reflexivity.
Defined.

(** C5 at work: of two points, one far from the wire and one on it, the
    second decides. *)
Lemma C5_collision_is_minimum_below_threshold_witness :
  let points : list Point := [(0.0, 0.5, 0.0); (-0.4, 1.05, 0.0)] in
  let m := min_distance_to_track (track_points timing_game) points in
  is_minimum m (distances points (track_points timing_game))
  /\ is_colliding
       (fst (update no_rounding timing_game
               (VList (map point_value points)) (clock 101)))
     = (m <? collision_threshold timing_game)
  /\ (m <? collision_threshold timing_game) = true.
Proof.
  cbv zeta.
  destruct (C5_collision_is_minimum_below_threshold no_rounding timing_game
              [(0.0, 0.5, 0.0); (-0.4, 1.05, 0.0)] (clock 101)
              eq_refl eq_refl eq_refl) as (Hmin & Hcol & _).
  split; [exact Hmin|]. split; [exact Hcol|]. vm_compute. reflexivity.
Defined.

(** C6 at work: three more calls on the completed game. *)
Lemma C6_elapsed_time_frozen_after_completion_witness :
  let calls :=
    [ (point_value (0.0, 0.5, 0.0), clock 140);
      (VList [], clock 150);
      (point_value (-0.4, 1.05, 0.0), clock 160) ] in
  game_completed completed_game = true
  /\ elapsed_time (run_updates no_rounding completed_game calls)
     = elapsed_time completed_game.
Proof.
  cbv zeta. split; [reflexivity|].
  apply (C6_elapsed_time_frozen_after_completion no_rounding completed_game).
  reflexivity.
Defined.

(** C7 at work: the completed game of the sample session is reachable. *)
Lemma C7_completed_implies_started_and_timing_witness :
  reachable no_rounding completed_game
  /\ game_completed completed_game = true
  /\ game_started completed_game = true
  /\ timing_started completed_game = true.
Proof.
  assert (Hr : reachable no_rounding completed_game).
  { exists default_collision_threshold, sample_calls.
    vm_compute. reflexivity. }
  split; [exact Hr|]. split; [reflexivity|].
  apply (C7_completed_implies_started_and_timing no_rounding completed_game Hr).
  reflexivity.
Defined.

(** C10 at work: the empty list in the timing phase. *)
Lemma C10_empty_positions_witness :
  snd (update no_rounding timing_game (VList []) (clock 101))
  = Ok (get_state no_rounding
          (fst (update no_rounding timing_game (VList []) (clock 101)))
          infinity)
  /\ is_colliding (fst (update no_rounding timing_game (VList []) (clock 101)))
     = false.
Proof.
  pose proof (C10_empty_positions no_rounding timing_game (clock 101)
                eq_refl eq_refl) as H.
  cbv zeta in H. destruct H as (_ & _ & Hr & _ & Ht).
  split; [exact Hr|]. now apply Ht.
Defined.

(** ** The scenarios of the specification *)

(** On the track [(0,0,0), (1,0,0)] with threshold 0.05: the point
    (0.5, 0, 0) is at distance 0 and collides; the point (0.5, 1, 0) is at
    distance 1 and does not. *)
Example scenario_point_on_wire :
  let result :=
    update no_rounding two_point_game_timing (point_value (0.5, 0, 0))
      (clock 101) in
  is_colliding (fst result) = true
  /\ collision_count (fst result) = 1%Z
  /\ option_map State.distance_to_track
       (match snd result with Ok st => Some st | Raise _ => None end)
     = Some (PyFloat 0).
Proof. vm_compute. auto. Qed.

Example scenario_point_off_wire :
  let result :=
    update no_rounding two_point_game_timing (point_value (0.5, 1, 0))
      (clock 101) in
  is_colliding (fst result) = false
  /\ collision_count (fst result) = 0%Z
  /\ option_map State.distance_to_track
       (match snd result with Ok st => Some st | Raise _ => None end)
     = Some (PyFloat 1).
Proof. vm_compute. auto. Qed.

(** Start zone (0,0,0) of radius 0.1: the primary point (0.05, 0, 0) starts
    the timer, and no distance is computed on that call. *)
Example scenario_start_zone :
  let result :=
    update no_rounding two_point_game_waiting (point_value (0.05, 0, 0))
      (clock 100) in
  timing_started (fst result) = true
  /\ start_time (fst result) = Some 100
  /\ option_map State.distance_to_track
       (match snd result with Ok st => Some st | Raise _ => None end)
     = Some (PyInt (-1)).
Proof. vm_compute. auto. Qed.

(** A touch is counted once while it lasts, a second touch within the
    cooldown is not counted, a third one after it is. *)
Example scenario_cooldown :
  increment_times no_rounding timing_game touch_and_release = [101; 102]
  /\ collision_count (run_updates no_rounding timing_game touch_and_release)
     = 2%Z.
Proof. vm_compute. auto. Qed.

(** A malformed point raises after the elapsed time was refreshed: the
    assignment made before the exception stays. *)
Example scenario_malformed_point :
  let result :=
    update no_rounding timing_game (VList [VList [VNum 1; VNum 2]]) (clock 107) in
  snd result = Raise ValueError
  /\ elapsed_time (fst result) = 7
  /\ is_colliding (fst result) = is_colliding timing_game.
Proof. vm_compute. auto. Qed.

(** * Further properties of the game *)

(** ** Malformed input *)

(** The distance routine returns only on a list of three numbers. *)
Lemma point_to_segment_distance_ok_inv point a b d :
  _point_to_segment_distance point a b = Ok d ->
  exists p, point = point_value p.
Proof.
  destruct a as [[ax ay] az], b as [[bx by'] bz].
  unfold _point_to_segment_distance.
  destruct point as [x | [|px [|py [|pz [|extra items]]]]];
    cbn [unpack3 bind]; try discriminate.
  destruct px as [x|?], py as [y|?], pz as [z|?];
    cbn [value_sub as_float bind]; try discriminate.
  intros _. now exists (x, y, z).
Qed.

Lemma track_loop_ok_inv point track acc m :
  (2 <= List.length track)%nat ->
  track_loop point track acc = Ok m ->
  exists p, point = point_value p.
Proof.
  destruct track as [|a [|b rest]]; cbn [List.length]; try lia. intros _.
  cbn [track_loop].
  destruct (_point_to_segment_distance point a b) as [d|e] eqn:Hd;
    cbn [bind]; [|discriminate].
  intros _. exact (point_to_segment_distance_ok_inv _ _ _ _ Hd).
Qed.

Lemma points_loop_ok_inv self first rest acc m :
  (2 <= List.length (track_points self))%nat ->
  points_loop self (first :: rest) acc = Ok m ->
  exists p, first = point_value p.
Proof.
  intros Hlen. cbn [points_loop]. unfold _calculate_min_distance_to_track.
  destruct (track_loop first (track_points self) infinity) as [d|e] eqn:Hd;
    cbn [bind]; [|discriminate].
  intros _. exact (track_loop_ok_inv _ _ _ _ Hlen Hd).
Qed.

Lemma notneg_infinity : notneg infinity = true.
Proof. reflexivity. Qed.

Lemma is_nan_infinity : is_nan infinity = false.
Proof. reflexivity. Qed.

(** What the loops return is a number that is not below zero. *)
Lemma point_to_segment_distance_ok_notneg point a b d :
  _point_to_segment_distance point a b = Ok d -> notneg d = true.
Proof.
  intros H. destruct (point_to_segment_distance_ok_inv _ _ _ _ H) as [p ->].
  rewrite point_to_segment_distance_total in H. injection H as <-.
  apply segment_distance_notneg.
Qed.

Lemma py_min_keeps acc d :
  notneg acc = true -> is_nan acc = false -> notneg d = true ->
  notneg (py_min acc d) = true /\ is_nan (py_min acc d) = false.
Proof.
  intros Hacc Hnan Hd. unfold py_min. destruct (d <? acc) eqn:E.
  - split; [exact Hd|exact (ltb_not_nan_l _ _ E)].
  - now split.
Qed.

Lemma track_loop_ok_notneg point track :
  forall acc m,
    notneg acc = true -> is_nan acc = false ->
    track_loop point track acc = Ok m ->
    notneg m = true /\ is_nan m = false.
Proof.
  induction track as [|a [|b rest] IH]; intros acc m Hacc Hnan;
    cbn [track_loop]; try (intros [= <-]; now split).
  destruct (_point_to_segment_distance point a b) as [d|e] eqn:Hd;
    cbn [bind]; [|discriminate].
  apply point_to_segment_distance_ok_notneg in Hd.
  destruct (py_min_keeps acc d Hacc Hnan Hd). now apply IH.
Qed.

Lemma points_loop_ok_notneg self positions :
  forall acc m,
    notneg acc = true -> is_nan acc = false ->
    points_loop self positions acc = Ok m ->
    notneg m = true /\ is_nan m = false.
Proof.
  induction positions as [|point rest IH]; intros acc m Hacc Hnan;
    cbn [points_loop]; [intros [= <-]; now split|].
  unfold _calculate_min_distance_to_track.
  destruct (track_loop point (track_points self) infinity) as [d|e] eqn:Hd;
    cbn [bind]; [|discriminate].
  destruct (track_loop_ok_notneg _ _ _ _ notneg_infinity is_nan_infinity Hd)
    as [Hn _].
  destruct (py_min_keeps acc d Hacc Hnan Hn). now apply IH.
Qed.

Section MoreSession.

Variable py_round : float -> Z -> float.

(** The paths of one [update] call, each with the assignments it made
    written out. *)
Ltac update_paths :=
  unfold update;
  repeat match goal with
    | |- context [match ?r with Ok _ => _ | Raise _ => _ end] =>
        destruct r as [?|?] eqn:?
    | |- context [if ?b then _ else _] => destruct b eqn:?
    end;
  rewrite ?set_game_completed_eq, ?detect_collision_eq,
    ?refresh_elapsed_time_eq, ?touch_start_eq;
  fields.

(** When [update] raises, on a track of at least one segment, nothing but
    [elapsed_time] has been assigned: the flags, the timer, the collision
    count and its time stamp are as before the call. *)
Theorem failing_update_keeps_collision_state
  (self : BuzzWireGame) (positions : value) (now : Clock) (e : exn) :
  (2 <= List.length (track_points self))%nat ->
  snd (update py_round self positions now) = Raise e ->
  let self' := fst (update py_round self positions now) in
  game_started self' = game_started self
  /\ game_completed self' = game_completed self
  /\ timing_started self' = timing_started self
  /\ start_time self' = start_time self
  /\ collision_count self' = collision_count self
  /\ is_colliding self' = is_colliding self
  /\ last_collision_time self' = last_collision_time self
  /\ cooldown self' = cooldown self
  /\ get_track self' = get_track self.
Proof.
  intros Hlen. cbv zeta. unfold update.
  destruct (negb (game_started self) || game_completed self);
    [discriminate|].
  destruct (normalize positions) as [points|?]; [|cbn; auto 10].
  destruct (negb (timing_started self)).
  - destruct (_is_in_zone self _ _) as [[|]|?]; cbn [fst snd];
      try discriminate; auto 10.
  - cbv zeta.
    assert (Ht : track_points (refresh_elapsed_time self now)
                 = track_points self)
      by (rewrite refresh_elapsed_time_eq; reflexivity).
    destruct (points_loop _ points infinity) as [m|?] eqn:Hloop.
    + assert (Hfirst : exists p, first_point_of points = point_value p).
      { destruct points as [|first rest]; [now exists (0, 0, 0)|].
        apply (points_loop_ok_inv _ first rest infinity m) with (2 := Hloop).
        now rewrite Ht. }
      destruct Hfirst as [p ->]. rewrite is_in_zone_total.
      cbn [snd]. discriminate.
    + cbn [fst snd]. intros _. rewrite refresh_elapsed_time_eq. fields.
      auto 10.
Qed.

(** The two input formats: a list that starts with a number is one point,
    and is handled as the list holding only that point. *)
Lemma single_point_format
  (self : BuzzWireGame) (x : float) (rest : list value) (now : Clock) :
  update py_round self (VList (VNum x :: rest)) now
  = update py_round self (VList [VList (VNum x :: rest)]) now.
Proof. reflexivity. Qed.

(** The flag [update] sets in the timing phase, on well-formed points. *)
Lemma is_colliding_update_timing self points now :
  game_started self = true -> game_completed self = false ->
  timing_started self = true ->
  is_colliding (fst (update py_round self (VList (map point_value points)) now))
  = (min_distance_to_track (track_points self) points
     <? collision_threshold self).
Proof.
  intros Hs Hc Ht. rewrite (update_timing py_round self points now Hs Hc Ht).
  cbv zeta. cbn [fst].
  destruct (in_zone _ _ _);
    rewrite ?set_game_completed_eq, detect_collision_eq,
      refresh_elapsed_time_eq; reflexivity.
Qed.

Lemma distances_incl points points' track :
  incl points points' ->
  incl (distances points track) (distances points' track).
Proof.
  intros Hincl d Hd. unfold distances in *.
  apply in_flat_map in Hd as (p & Hp & Hd).
  apply in_flat_map. exists p. split; [now apply Hincl | exact Hd].
Qed.

(** Multi-point detection is monotone: in the timing phase, if a list of
    points collides, so does every list that contains those points, in
    whatever order and at whatever time. *)
Theorem more_points_keep_collision
  (self : BuzzWireGame) (points points' : list Point) (now now' : Clock) :
  game_started self = true ->
  game_completed self = false ->
  timing_started self = true ->
  incl points points' ->
  is_colliding
    (fst (update py_round self (VList (map point_value points)) now)) = true ->
  is_colliding
    (fst (update py_round self (VList (map point_value points')) now')) = true.
Proof.
  intros Hs Hc Ht Hincl.
  rewrite !is_colliding_update_timing by assumption.
  rewrite !(is_minimum_below _ _ _
              (min_distance_to_track_is_minimum (track_points self) _)).
  intros (d & Hd & Hlt). exists d. split; [|exact Hlt].
  now apply (distances_incl points points').
Qed.

(** In the timing phase the primary point alone decides completion: the
    game is completed exactly when the first point is within [zone_radius]
    of the end zone, wherever the other points are; the timer is kept. *)
Theorem completion_by_primary_point
  (self : BuzzWireGame) (p : Point) (others : list Point) (now : Clock) :
  game_started self = true ->
  game_completed self = false ->
  timing_started self = true ->
  let self' :=
    fst (update py_round self (VList (map point_value (p :: others))) now) in
  game_completed self' = in_zone p (end_zone self) (zone_radius self)
  /\ game_started self' = true
  /\ timing_started self' = true
  /\ start_time self' = start_time self.
Proof.
  intros Hs Hc Ht. cbv zeta.
  rewrite (update_timing py_round self (p :: others) now Hs Hc Ht).
  cbv zeta. cbn [fst hd].
  destruct (in_zone _ _ _);
    rewrite ?set_game_completed_eq, detect_collision_eq,
      refresh_elapsed_time_eq; fields; auto.
Qed.

(** What [update] returns is the state after the call: the snapshot is
    [get_state] of the game as the call left it, for the distance computed
    (or none). *)
Lemma update_snapshot self positions now st :
  snd (update py_round self positions now) = Ok st ->
  exists d,
    st = get_state py_round (fst (update py_round self positions now)) d.
Proof.
  unfold update.
  repeat match goal with
    | |- context [match ?r with Ok _ => _ | Raise _ => _ end] =>
        destruct r as [?|?] eqn:?
    | |- context [if ?b then _ else _] => destruct b eqn:?
    end; cbn [fst snd]; try discriminate;
    intros [= <-]; eexists; reflexivity.
Qed.

(** The consistency of the session attributes is kept by every operation. *)
Lemma session_consistent_init threshold :
  session_consistent (__init__ threshold).
Proof.
  unfold session_consistent, pristine, __init__. game_simpl.
  repeat split; try discriminate; try lia; auto;
    try (intros H; now contradiction H).
Qed.

Lemma session_consistent_reset self : session_consistent (reset self).
Proof.
  destruct self. unfold session_consistent, pristine. game_simpl.
  repeat split; try discriminate; try lia; auto;
    try (intros H; now contradiction H).
Qed.

Lemma session_consistent_start_game self :
  session_consistent (start_game self).
Proof.
  destruct self. unfold session_consistent, pristine. game_simpl.
  repeat split; try discriminate; try lia; auto;
    try (intros H; now contradiction H).
Qed.

Lemma session_consistent_update self positions now :
  session_consistent self ->
  session_consistent (fst (update py_round self positions now)).
Proof.
  intros H. unfold update.
  destruct (negb (game_started self) || game_completed self) eqn:Hidle;
    [exact H|].
  apply orb_false_elim in Hidle as [Hgs Hgc].
  apply negb_false_iff in Hgs.
  destruct (normalize positions) as [points|?]; [|exact H].
  destruct (timing_started self) eqn:Hts; cbn [negb].
  - cbv zeta.
    assert (Hkept :
      forall g (b : bool),
        session_consistent
          (if b
           then set_game_completed true
                  (detect_collision (refresh_elapsed_time self now) g
                     (at_collision now))
           else detect_collision (refresh_elapsed_time self now) g
                  (at_collision now))).
    { destruct H as (Hcount & Htimer & _ & _). rewrite Hts in Htimer.
      intros g [];
        rewrite ?set_game_completed_eq, detect_collision_eq,
          refresh_elapsed_time_eq;
        unfold session_consistent, pristine; fields; rewrite Hts;
        repeat split; auto; try discriminate;
        try (apply Htimer; reflexivity);
        destruct (counts_collision _ _ _); lia. }
    destruct (points_loop _ points infinity) as [m|?]; cbn [fst].
    + destruct (_is_in_zone _ _ _) as [[|]|?]; cbn [fst].
      * apply (Hkept m true).
      * apply (Hkept m false).
      * apply (Hkept m false).
    + destruct H as (Hcount & Htimer & _ & _). rewrite Hts in Htimer.
      rewrite refresh_elapsed_time_eq.
      unfold session_consistent, pristine. fields. rewrite Hts.
      repeat split; auto; try discriminate. apply Htimer; reflexivity.
  - destruct (_is_in_zone _ _ _) as [[|]|?]; cbn [fst]; try exact H.
    destruct H as (Hcount & _ & _ & _).
    rewrite touch_start_eq. unfold session_consistent, pristine. fields.
    repeat split; auto; discriminate.
Qed.

Lemma session_consistent_run calls :
  forall self,
    session_consistent self -> session_consistent (run py_round self calls).
Proof.
  induction calls as [|c calls IH]; intros self H; [exact H|].
  apply IH. destruct c; cbn [step].
  - apply session_consistent_reset.
  - apply session_consistent_start_game.
  - now apply session_consistent_update.
Qed.

(** In every reachable game the collision count is not negative, the timer
    is set exactly while timing, timing implies started, and before timing
    starts the session is as [reset] left it: no time elapsed, no collision
    counted or flagged, not completed. *)
Theorem reachable_session_consistent (self : BuzzWireGame) :
  reachable py_round self ->
  (0 <= collision_count self)%Z
  /\ (timing_started self = true <-> start_time self <> None)
  /\ (timing_started self = true -> game_started self = true)
  /\ (timing_started self = false ->
      game_completed self = false /\ start_time self = None
      /\ elapsed_time self = 0 /\ collision_count self = 0%Z
      /\ is_colliding self = false /\ last_collision_time self = 0).
Proof.
  intros (threshold & calls & ->).
  destruct (session_consistent_run calls _ (session_consistent_init threshold))
    as (H1 & H2 & H3 & H4).
  split; [exact H1|]. split; [exact H2|]. split; [exact H3|].
  intros Ht. destruct (H4 Ht) as (? & _ & ? & ? & ? & ? & ?). auto 10.
Qed.

(** [update] never takes a game back: it does not change [game_started],
    and once [timing_started] or [game_completed] is true it stays true,
    whatever the input and also when the call raises. *)
Theorem update_never_goes_back
  (self : BuzzWireGame) (calls : list (value * Clock)) :
  let self' := run_updates py_round self calls in
  game_started self' = game_started self
  /\ (timing_started self = true -> timing_started self' = true)
  /\ (game_completed self = true -> game_completed self' = true).
Proof.
  cbv zeta. revert self.
  induction calls as [|[positions now] calls IH]; intros self;
    [now repeat split|].
  unfold run_updates in *. cbn [fold_left fst snd].
  destruct (IH (fst (update py_round self positions now))) as (H1 & H2 & H3).
  assert (Hstep :
    game_started (fst (update py_round self positions now))
    = game_started self
    /\ (timing_started self = true ->
        timing_started (fst (update py_round self positions now)) = true)
    /\ (game_completed self = true ->
        game_completed (fst (update py_round self positions now)) = true)).
  { clear. update_paths; repeat split; auto;
      intros H; rewrite H in *; try discriminate;
      rewrite ?orb_true_r in *; discriminate. }
  destruct Hstep as (S1 & S2 & S3).
  split; [now rewrite H1|]. split; auto.
Qed.

(** A snapshot reports a distance exactly when the call was made in the
    timing phase (started, not completed, timing): there the value is a
    float, never the -1 of the other phases. *)
Theorem distance_reported_iff_timing
  (self : BuzzWireGame) (positions : value) (now : Clock) (st : State.t) :
  snd (update py_round self positions now) = Ok st ->
  (State.distance_to_track st = PyInt (-1)
   <-> game_started self = false \/ game_completed self = true
       \/ timing_started self = false).
Proof.
  unfold update.
  destruct (game_started self); cbn [negb orb];
    [|intros [= <-]; split; auto].
  destruct (game_completed self); [intros [= <-]; split; auto|].
  destruct (normalize positions) as [points|?]; [|discriminate].
  destruct (timing_started self); cbn [negb].
  - cbv zeta.
    destruct (points_loop _ points infinity) as [m|?] eqn:Hloop;
      [|discriminate].
    destruct (points_loop_ok_notneg _ _ _ _ notneg_infinity is_nan_infinity
                Hloop) as [Hn Hnan].
    destruct (_is_in_zone _ _ _) as [inside|?]; [|discriminate].
    cbn [snd]. intros [= <-]. unfold get_state.
    cbn [State.distance_to_track]. rewrite (notneg_leb _ Hn Hnan).
    split; [discriminate|]. intros [H | [H | H]]; discriminate.
  - destruct (_is_in_zone _ _ _) as [inside|?]; [|discriminate].
    cbn [snd]. intros [= <-]. split; auto.
Qed.

End MoreSession.

(** * Properties of the HTTP handlers *)

Section ServerProperties.
Import String.
Local Open Scope string_scope.

Variable py_round : float -> Z -> float.


(** Appending a call to a run. *)
Lemma reachable_step self c :
  reachable py_round self -> reachable py_round (step py_round self c).
Proof.
  intros (threshold & calls & ->). exists threshold, (calls ++ [c])%list.
  unfold run. now rewrite fold_left_app.
Qed.

Lemma reachable_after_start threshold :
  reachable py_round (start_game (__init__ threshold)).
Proof. exists threshold, [StartGame]. reflexivity. Qed.

(** Every handler hands a reachable game on, or builds one. *)
Lemma handle_reachable game r :
  (forall g, game = Some g -> reachable py_round g) ->
  forall g', fst (Server.handle py_round game r) = Some g' -> reachable py_round g'.
Proof.
  intros Hgame g'. destruct r as [data|data now| | | |]; cbn [Server.handle].
  - unfold Server.start_game. destruct data as [|t]; cbn [fst].
    + apply Hgame.
    + intros [= <-]. apply reachable_after_start.
  - unfold Server.update_game. destruct game as [g|]; [|discriminate].
    destruct data as [|[data|]]; try (cbn [fst]; apply Hgame).
    cbv zeta.
    pose proof (reachable_step g (Update (Server.positions_of data) now)
                  (Hgame g eq_refl)) as Hr.
    cbn [step] in Hr.
    destruct (update py_round g (Server.positions_of data) now) as [g1 [st|e]];
      cbn [fst] in *; intros [= <-]; exact Hr.
  - unfold Server.get_track. destruct game; cbn [fst]; apply Hgame.
  - unfold Server.get_state. destruct game; cbn [fst]; apply Hgame.
  - unfold Server.reset_game. destruct game as [g|]; [|discriminate].
    cbn [fst]. intros [= <-].
    apply (reachable_step g StartGame), Hgame. reflexivity.
  - cbn [Server.health_check fst]. apply Hgame.
Qed.

Lemma served_reachable requests :
  forall g, Server.serve py_round requests = Some g -> reachable py_round g.
Proof.
  unfold Server.serve.
  assert (H : forall game,
             (forall g, game = Some g -> reachable py_round g) ->
             forall g,
               fold_left (fun game r => fst (Server.handle py_round game r)) requests game
               = Some g ->
               reachable py_round g).
  { induction requests as [|r requests IH]; intros game Hgame g;
      cbn [fold_left]; [apply Hgame|].
    apply IH. now apply handle_reachable. }
  apply H. discriminate.
Qed.

(** The game the server holds is always one that [__init__], [reset],
    [start_game] and [update] calls can reach: whatever was proved of
    reachable games holds of it. *)
Theorem served_game_is_reachable (requests : list Server.request)
  (g : BuzzWireGame) :
  Server.serve py_round requests = Some g -> reachable py_round g.
Proof. apply served_reachable. Qed.


(** On one well-formed point [update] returns, in every phase. *)
Lemma update_point_returns g p now :
  exists st, snd (update py_round g (VList [point_value p]) now) = Ok st.
Proof.
  destruct (game_started g) eqn:Hs; [destruct (game_completed g) eqn:Hc|].
  - rewrite update_outside_session by now right. now eexists.
  - destruct (timing_started g) eqn:Ht.
    + change (VList [point_value p]) with (VList (map point_value [p])).
      rewrite (update_timing py_round g [p] now Hs Hc Ht). now eexists.
    + rewrite (update_arming py_round g p [] now Hs Hc Ht). now eexists.
  - rewrite update_outside_session by now left. now eexists.
Qed.

(** A request in the single-point format: the entry ["position"] is used
    when it is a list of three items, and the origin stands in for it when it
    is missing, not a list or of another length; when its three items are
    floats, the request is answered with status 200 in every state of the
    game (a game whose threshold is a float). *)
Theorem position_request_never_fails
  (g : BuzzWireGame) (data : Server.dict) (now : Clock) :
  Server.dict_contains data "positions" = false ->
  (forall a b c,
     Server.dict_get data "position" = Some (VList [a; b; c]) ->
     is_list a = false /\ is_list b = false /\ is_list c = false) ->
  let position :=
    Server.dict_get_default data "position" Server.origin_value in
  let used :=
    if Server.is_list_of_length position 3 then position
    else Server.origin_value in
  Server.update_game py_round (Some g) (Server.Readable (Some data)) now
  = Server.update_game py_round (Some g)
      (Server.Readable (Some [("positions", VList [used])])) now
  /\ status
       (snd (Server.update_game py_round (Some g)
               (Server.Readable (Some data)) now))
     = 200%Z.
Proof.
  intros Hno Hnum. cbv zeta.
  assert (Hpos : Server.positions_of data
                 = VList [if Server.is_list_of_length
                               (Server.dict_get_default data "position"
                                  Server.origin_value) 3
                          then Server.dict_get_default data "position"
                                 Server.origin_value
                          else Server.origin_value]).
  { unfold Server.positions_of. rewrite Hno.
    now destruct (Server.is_list_of_length _ 3). }
  split.
  - unfold Server.update_game. rewrite Hpos. reflexivity.
  - unfold Server.update_game. rewrite Hpos.
    assert (Hp : exists p,
      (if Server.is_list_of_length
            (Server.dict_get_default data "position" Server.origin_value) 3
       then Server.dict_get_default data "position" Server.origin_value
       else Server.origin_value) = point_value p).
    { unfold Server.dict_get_default.
      destruct (Server.dict_get data "position") as [[x|items]|] eqn:Hget;
        cbn [Server.is_list_of_length]; try (now exists (0, 0, 0)).
      destruct items as [|a [|b [|c [|d items]]]]; cbn [List.length Nat.eqb];
        try (now exists (0, 0, 0)).
      destruct (Hnum a b c eq_refl) as (Ha & Hb & Hc).
      destruct a as [x|?], b as [y|?], c as [z|?]; try discriminate.
      now exists (x, y, z). }
    destruct Hp as [p ->].
    destruct (update_point_returns g p now) as [st Hst].
    destruct (update py_round g (VList [point_value p]) now) as [g1 r].
    cbn [snd] in Hst. subst r. reflexivity.
Qed.

Lemma start_game_same_track a b :
  get_track a = get_track b -> start_game a = start_game b.
Proof.
  intros H. destruct a, b. game_simpl.
  injection H as -> -> -> -> ->. reflexivity.
Qed.

(** On the game the server holds, [/reset] does what [/start] does with the
    threshold the game was created with: the same game results, and the same
    snapshot is sent. *)
Theorem reset_is_start_with_same_threshold
  (requests : list Server.request) (g : BuzzWireGame) :
  Server.serve py_round requests = Some g ->
  let reset := Server.reset_game py_round (Some g) in
  let start :=
    Server.start_game py_round (Some g)
      (Server.Readable (Some (collision_threshold g))) in
  fst reset = fst start
  /\ exists st track,
       snd reset = Server.Snapshot st /\ snd start = Server.Started st track.
Proof.
  intros Hserved. cbv zeta.
  destruct (served_reachable requests g Hserved) as (threshold & calls & ->).
  pose proof (get_track_run py_round calls (__init__ threshold)) as Htrack.
  assert (Hthr : collision_threshold (run py_round (__init__ threshold) calls)
                 = threshold).
  { apply (f_equal Track.collision_threshold) in Htrack. exact Htrack. }
  rewrite Hthr. unfold Server.reset_game, Server.start_game. cbn [fst snd].
  rewrite (start_game_same_track _ _ Htrack).
  split; [reflexivity|]. now eexists _, _.
Qed.

(** After an [/update] answered with a snapshot, [/state] answers with the
    same snapshot, except that no distance is reported, and changes
    nothing. *)
Theorem state_after_update
  (game game' : option BuzzWireGame) (data : Server.body (option Server.dict))
  (now : Clock) (st : State.t) :
  Server.update_game py_round game data now = (game', Server.Snapshot st) ->
  Server.get_state py_round game'
  = (game',
     Server.Snapshot
       {| State.game_started := State.game_started st;
          State.game_completed := State.game_completed st;
          State.timing_started := State.timing_started st;
          State.elapsed_time := State.elapsed_time st;
          State.collision_count := State.collision_count st;
          State.is_colliding := State.is_colliding st;
          State.distance_to_track := PyInt (-1);
          State.collision_threshold := State.collision_threshold st |}).
Proof.
  unfold Server.update_game.
  destruct game as [g|]; [|discriminate].
  destruct data as [|[data|]]; try discriminate.
  cbv zeta.
  pose proof (update_snapshot py_round g (Server.positions_of data) now) as Hs.
  destruct (update py_round g (Server.positions_of data) now) as [g1 [st1|e]];
    [|discriminate].
  intros [= <- <-]. destruct (Hs st1 eq_refl) as [d ->].
  reflexivity.
Qed.

End ServerProperties.

(** ** The further properties at work *)

Section FurtherExamples.
Import String.
Local Open Scope string_scope.

(** A point with two coordinates in the timing phase: the call raises, the
    collision attributes are untouched. *)
Lemma failing_update_keeps_collision_state_witness :
  let result :=
    update no_rounding timing_game (VList [VList [VNum 1; VNum 2]]) (clock 107) in
  snd result = Raise ValueError
  /\ collision_count (fst result) = collision_count timing_game
  /\ is_colliding (fst result) = is_colliding timing_game.
Proof.
  cbv zeta.
  assert (Hr : snd (update no_rounding timing_game
                      (VList [VList [VNum 1; VNum 2]]) (clock 107))
               = Raise ValueError) by (vm_compute; reflexivity).
  split; [exact Hr|].
  assert (Hlen : (2 <= List.length (track_points timing_game))%nat)
    by (cbn; lia).
  pose proof (failing_update_keeps_collision_state no_rounding timing_game
                _ _ _ Hlen Hr) as H.
  cbv zeta in H. destruct H as (_ & _ & _ & _ & Hc & Hi & _).
  now split.
Defined.

(** The started game of the sample session is still as [reset] left it. *)
Lemma reachable_session_consistent_witness :
  reachable no_rounding started_game
  /\ timing_started started_game = false
  /\ elapsed_time started_game = 0
  /\ collision_count started_game = 0%Z.
Proof.
  assert (Hr : reachable no_rounding started_game).
  { exists default_collision_threshold, [StartGame]. vm_compute. reflexivity. }
  destruct (reachable_session_consistent no_rounding started_game Hr)
    as (_ & _ & _ & Hp).
  destruct (Hp eq_refl) as (_ & _ & He & Hc & _).
  auto.
Defined.

(** The end point of the wire first, a point far from the wire second: the
    game is completed. *)
Lemma completion_by_primary_point_witness :
  game_completed
    (fst (update no_rounding timing_game
            (VList (map point_value [(0.8, 1.1, 0.0); (0.0, 0.5, 0.0)]))
            (clock 130)))
  = in_zone (0.8, 1.1, 0.0) (end_zone timing_game) (zone_radius timing_game).
Proof.
  apply (completion_by_primary_point no_rounding timing_game (0.8, 1.1, 0.0)
           [(0.0, 0.5, 0.0)] (clock 130)); reflexivity.
Defined.

(** A point on the wire collides; so does the list that adds a far point in
    front of it. *)
Lemma more_points_keep_collision_witness :
  is_colliding
    (fst (update no_rounding timing_game
            (VList (map point_value [(0.0, 0.5, 0.0); (-0.4, 1.05, 0.0)]))
            (clock 102)))
  = true.
Proof.
  apply (more_points_keep_collision no_rounding timing_game
           [(-0.4, 1.05, 0.0)] [(0.0, 0.5, 0.0); (-0.4, 1.05, 0.0)]
           (clock 101) (clock 102));
    [reflexivity | reflexivity | reflexivity
    | intros p [<- | []]; right; now left
    | vm_compute; reflexivity].
Defined.

(** A call in the timing phase reports a distance. *)
Lemma distance_reported_iff_timing_witness :
  exists st,
    snd (update no_rounding timing_game (point_value (0.0, 0.5, 0.0))
           (clock 101)) = Ok st
    /\ State.distance_to_track st <> PyInt (-1).
Proof.
  eexists. split; [vm_compute; reflexivity|].
  intros H.
  apply (distance_reported_iff_timing no_rounding timing_game
           (point_value (0.0, 0.5, 0.0)) (clock 101)) in H;
    [|vm_compute; reflexivity].
  destruct H as [H | [H | H]]; discriminate.
Defined.

Lemma served_sample : Server.serve no_rounding sample_requests = Some served_game.
Proof. vm_compute. reflexivity. Qed.

Lemma served_game_is_reachable_witness : reachable no_rounding served_game.
Proof.
  apply (served_game_is_reachable no_rounding sample_requests).
  vm_compute. reflexivity.
Defined.

(** A position of three floats, sent to the served game: the request is
    answered with status 200. *)
Lemma position_request_never_fails_witness :
  status
    (snd (Server.update_game no_rounding (Some served_game)
            (Server.Readable (Some [("position", point_value (0.0, 0.5, 0.0))]))
            (clock 102)))
  = 200%Z.
Proof.
  apply (position_request_never_fails no_rounding served_game
           [("position", point_value (0.0, 0.5, 0.0))] (clock 102)).
  - reflexivity.
  - intros a b c [= <- <- <-]. repeat split.
Defined.

(** [/reset] on the served game gives the game [/start] gives with 0.03. *)
Lemma reset_is_start_with_same_threshold_witness :
  fst (Server.reset_game no_rounding (Some served_game))
  = fst (Server.start_game no_rounding (Some served_game)
           (Server.Readable (Some 0.03))).
Proof.
  apply (reset_is_start_with_same_threshold no_rounding sample_requests
           served_game).
  vm_compute. reflexivity.
Defined.

(** [/state] after the last [/update] of the sample. *)
Lemma state_after_update_witness :
  exists st,
    Server.get_state no_rounding (Some served_game)
    = (Some served_game, Server.Snapshot st)
    /\ State.distance_to_track st = PyInt (-1)
    /\ State.collision_count st = 1%Z.
Proof.
  assert (H : exists st,
            Server.update_game no_rounding
              (Server.serve no_rounding (firstn 2 sample_requests))
              (Server.Readable
                 (Some [("positions", VList [point_value (-0.4, 1.05, 0.0)])]))
              (clock 101)
            = (Some served_game, Server.Snapshot st)
            /\ State.collision_count st = 1%Z).
  { eexists. split; vm_compute; reflexivity. }
  destruct H as (st & Hupd & Hcount).
  eexists. split; [|split].
  - apply (state_after_update no_rounding _ _ _ _ _ Hupd).
  - reflexivity.
  - exact Hcount.
Defined.

End FurtherExamples.

